(** * Product-transaction service: routes, store queries and start-up

    A shallow embedding of [server/src/models.js] (the Mongoose schema and the
    Express router that follows it in the same file) and of
    [server/src/server.js], together with the JavaScript built-ins the
    handlers call ([String.prototype.toLowerCase], the [Date] constructor,
    [parseFloat], [RegExp]) and the store interface they use. *)

From Stdlib Require Import ZArith QArith Qround Qabs Bool Ascii String List Lia.
From stdpp Require Import base option list gmap strings.

Open Scope Z_scope.

(** ** JavaScript built-ins used by the handlers *)

Module JS.

(** Values a property read of [monthMap] can produce: a number, [undefined],
    or an object inherited through the prototype chain. *)
Inductive value :=
| Undefined
| Num (n : Z)
| Obj.

(** ToBoolean, as applied by [!monthMap[month]]. *)
Definition truthy (v : value) : bool :=
  match v with
  | Undefined => false
  | Num n => negb (n =? 0)
  | Obj => true
  end.

(** ToNumber; [None] is NaN ([undefined] and function or plain objects all
    convert to NaN). *)
Definition ToNumber (v : value) : option Z :=
  match v with
  | Num n => Some n
  | Undefined | Obj => None
  end.

(** [v + 1]: numeric addition on numbers; [undefined + 1] is NaN and an
    object operand makes [+] a string concatenation, which the [Date]
    constructor then converts to NaN. *)
Definition plus_one (v : value) : option Z :=
  match v with
  | Num n => Some (n + 1)
  | Undefined | Obj => None
  end.

(** The names every plain object inherits from [Object.prototype]. *)
Definition Object_prototype : list string :=
  [ "constructor"; "__defineGetter__"; "__defineSetter__"; "hasOwnProperty";
    "__lookupGetter__"; "__lookupSetter__"; "isPrototypeOf";
    "propertyIsEnumerable"; "toString"; "valueOf"; "__proto__";
    "toLocaleString" ]%string.

(** Property read [o[key]] on an object literal with numeric own
    properties: own properties first, then [Object.prototype]. *)
Definition get (o : gmap string Z) (key : string) : value :=
  match o !! key with
  | Some n => Num n
  | None => if bool_decide (key ∈ Object_prototype) then Obj else Undefined
  end.

(** [toLowerCase] on the ASCII letters; other characters are unchanged. *)
Definition lower_ascii (c : ascii) : ascii :=
  let n := nat_of_ascii c in
  if ((65 <=? n) && (n <=? 90))%nat then ascii_of_nat (n + 32) else c.

Fixpoint toLowerCase (s : string) : string :=
  match s with
  | EmptyString => EmptyString
  | String c s' => String (lower_ascii c) (toLowerCase s')
  end.

(** *** Dates

    A time value is a number of milliseconds on the local time line (the
    zone offset is taken to be constant, so comparing instants is comparing
    local times); [Invalid] is the date whose time value is NaN. *)

Inductive Date :=
| Invalid
| TimeValue (t : Z).

Definition msPerDay : Z := 86400000.

Definition DayFromYear (y : Z) : Z :=
  365 * (y - 1970) + (y - 1969) / 4 - (y - 1901) / 100 + (y - 1601) / 400.

Definition InLeapYear (y : Z) : bool :=
  if negb (y mod 4 =? 0) then false
  else if negb (y mod 100 =? 0) then true
  else (y mod 400 =? 0).

Definition DaysInYear (y : Z) : Z := if InLeapYear y then 366 else 365.

(** Day within the year on which month [mn] (0-11) starts. *)
Definition MonthStart (leap : bool) (mn : Z) : Z :=
  let l := if leap then 1 else 0 in
  match mn with
  | 0 => 0
  | 1 => 31
  | 2 => 59 + l
  | 3 => 90 + l
  | 4 => 120 + l
  | 5 => 151 + l
  | 6 => 181 + l
  | 7 => 212 + l
  | 8 => 243 + l
  | 9 => 273 + l
  | 10 => 304 + l
  | _ => 334 + l
  end.

(** MakeDay(year, month, date): months outside 0-11 carry into the year and
    [date] may be any integer, so day 0 is the day before the first. *)
Definition MakeDay (year month date : Z) : Z :=
  let ym := year + month / 12 in
  let mn := month mod 12 in
  DayFromYear ym + MonthStart (InLeapYear ym) mn + date - 1.

Definition MakeDate (day time : Z) : Z := day * msPerDay + time.

Definition TimeClip (t : Z) : Date :=
  if Z.abs t <=? 8640000000000000 then TimeValue t else Invalid.

(** [new Date(year, monthIndex, date)] with the time fields left at 0. A
    year in 0-99 means 1900 + year; a NaN month gives an invalid date. *)
Definition new_Date (year : Z) (monthIndex : option Z) (date : Z) : Date :=
  match monthIndex with
  | None => Invalid
  | Some m =>
      let yr := if (0 <=? year) && (year <=? 99) then 1900 + year else year in
      TimeClip (MakeDate (MakeDay yr m date) 0)
  end.

(** Number of days of month [mn] (0-11) of [year]. *)
Definition DaysInMonth (year mn : Z) : Z :=
  MakeDay year (mn + 1) 1 - MakeDay year mn 1.

(** *** Numbers

    A number is NaN, an infinity or a finite value; finite values are kept
    as exact rationals, so rounding to a double is not part of the model. *)

Inductive number :=
| NaN
| Infinity (negative : bool)
| Finite (q : Q).

Definition is_digit (c : ascii) : bool :=
  let n := nat_of_ascii c in ((48 <=? n) && (n <=? 57))%nat.

Definition digit_value (c : ascii) : Z := Z.of_nat (nat_of_ascii c) - 48.

(** StrWhiteSpaceChar, on ASCII: tab, line feed, vertical tab, form feed,
    carriage return and space. *)
Definition is_space (c : ascii) : bool :=
  let n := nat_of_ascii c in
  ((9 <=? n) && (n <=? 13) || (n =? 32))%nat.

Fixpoint trim_start (s : string) : string :=
  match s with
  | String c s' => if is_space c then trim_start s' else s
  | EmptyString => s
  end.

(** Reads the longest run of decimal digits at the head of [s], on top of
    the value [acc] read so far: the value, the number of digits read and
    the rest of the string. *)
Fixpoint read_digits (acc : Z) (n : nat) (s : string) : Z * nat * string :=
  match s with
  | String c s' =>
      if is_digit c then read_digits (10 * acc + digit_value c) (S n) s'
      else (acc, n, s)
  | EmptyString => (acc, n, s)
  end.

Definition read_sign (s : string) : bool * string :=
  match s with
  | String "-" s' => (true, s')
  | String "+" s' => (false, s')
  | _ => (false, s)
  end.

(** The exponent part [e], [e+] or [e-] followed by digits; it counts only
    when at least one digit follows. *)
Definition read_exponent (s : string) : Z :=
  match s with
  | String c s' =>
      if (c =? "e")%char || (c =? "E")%char then
        let '(neg, s'') := read_sign s' in
        let '(e, n, _) := read_digits 0 0 s'' in
        match n with
        | O => 0
        | _ => if neg then - e else e
        end
      else 0
  | EmptyString => 0
  end.

Definition scale (q : Q) (e : Z) : Q :=
  if 0 <=? e then (q * inject_Z (10 ^ e))%Q else (q / inject_Z (10 ^ (- e)))%Q.

(** [parseFloat]: leading white space is dropped, then the longest prefix
    that is a decimal literal is converted; NaN when there is none. The
    value is the exact decimal one: rounding to a double, overflow to an
    infinity and underflow to zero are not modelled. *)
Definition parseFloat (input : string) : number :=
  let '(neg, s) := read_sign (trim_start input) in
  if String.prefix "Infinity" s then Infinity neg
  else
    let '(ip, ni, s1) := read_digits 0 0 s in
    let '(fp, nf, s2) :=
      match s1 with
      | String "." s1' => read_digits 0 0 s1'
      | _ => (0, O, s1)
      end in
    match ni, nf with
    | O, O => NaN
    | _, _ =>
        let mantissa := (inject_Z (ip * 10 ^ Z.of_nat nf + fp) / inject_Z (10 ^ Z.of_nat nf))%Q in
        let v := Qred (scale mantissa (read_exponent s2)) in
        Finite (if neg then (- v)%Q else v)
    end.

(** *** Regular expressions

    [new RegExp(source, 'i')] for sources made of literal characters and
    the wildcard [.]; a source that uses any other pattern syntax is not
    interpreted ([None]). Strings are sequences of one-byte characters,
    and letter case is folded on the ASCII letters. *)

Inductive atom :=
| Lit (c : ascii)
| AnyChar.

Definition RegExp := list atom.

(** The syntax characters of a pattern. *)
Definition syntax_chars : list ascii :=
  list_ascii_of_string "\^$.*+?()[]{}|".

Definition is_syntax_char (c : ascii) : bool :=
  existsb (Ascii.eqb c) syntax_chars.

Fixpoint new_RegExp (source : string) : option RegExp :=
  match source with
  | EmptyString => Some []
  | String c s' =>
      match new_RegExp s' with
      | None => None
      | Some r =>
          if (c =? ".")%char then Some (AnyChar :: r)
          else if is_syntax_char c then None
          else Some (Lit c :: r)
      end
  end.

(** Line terminators, which [.] does not match. *)
Definition is_line_terminator (c : ascii) : bool :=
  let n := nat_of_ascii c in ((n =? 10) || (n =? 13))%nat.

Definition atom_matches (a : atom) (c : ascii) : bool :=
  match a with
  | Lit x => (lower_ascii x =? lower_ascii c)%char
  | AnyChar => negb (is_line_terminator c)
  end.

(** The pattern matches at the head of [s]. *)
Fixpoint matches_here (r : RegExp) (s : string) : bool :=
  match r, s with
  | [], _ => true
  | a :: r', String c s' => atom_matches a c && matches_here r' s'
  | _ :: _, EmptyString => false
  end.

(** [r.test(s)]: the pattern matches somewhere in [s]. *)
Fixpoint test (r : RegExp) (s : string) : bool :=
  matches_here r s ||
  match s with
  | String _ s' => test r s'
  | EmptyString => false
  end.

End JS.

(** ** The schema and the store *)

(** [transactionSchema]: no field is required, so each may be absent. A date
    is its time value; a price is a finite number. *)
Record Transaction := {
  title : option string;
  description : option string;
  price : option Q;
  dateOfSale : option Z;
  category : option string;
}.

Module Store.

(** The condition on [price] in a filter. *)
Inductive PriceCond :=
| PriceIs (n : JS.number)      (* { price: n } *)
| PriceExists.                 (* { price: { $exists: true } } *)

(** The filter documents the router builds. *)
Inductive Filter :=
| DateBetween (gte lte : JS.Date)   (* { dateOfSale: { $gte, $lte } } *)
| DateBefore (lt : JS.Date)         (* { dateOfSale: { $lt } } *)
| AnyOf (titleRe descriptionRe : JS.RegExp) (priceCond : PriceCond)
                                    (* { $or: [{title}, {description}, {price}] } *)
| AnyOfTests (titleTest descriptionTest : string -> bool) (priceCond : PriceCond).
                                    (* the same, each pattern given by its test *)

(** The operations the router issues. *)
Inductive Op :=
| Find (f : Filter) (skip limit : option Z)
| CountDocuments (f : Filter)
| SumPrice (f : Filter)             (* $match f, $group { _id: null, total: { $sum: "$price" } } *)
| CountByCategory (f : Filter).     (* $match f, $group { _id: "$category", count: { $sum: 1 } } *)

(** A store: the collection in its natural order, and for the n-th
    operation of a request whether it is rejected, and with which error
    message: by the store, or by the client library in front of it, which
    casts the filter first and refuses a NaN price or an invalid date. *)
Record Db := {
  docs : list Transaction;
  fault : nat -> Op -> option string;
}.

(** One output document of the category grouping. *)
Record Group := { _id : option string; count : nat }.

(** A pattern on a text field; an absent field matches no pattern. *)
Definition regex_field (r : JS.RegExp) (field : option string) : bool :=
  match field with
  | Some s => JS.test r s
  | None => false
  end.

(** The test of a compiled pattern on a text field; an absent field passes
    no test. *)
Definition text_field (accepts : string -> bool) (field : option string) : bool :=
  match field with
  | Some s => accepts s
  | None => false
  end.

(** A price condition on a field value; the prices in the collection are
    finite, so NaN and the infinities equal none of them. *)
Definition price_matches (c : PriceCond) (p : option Q) : bool :=
  match c, p with
  | PriceExists, Some _ => true
  | PriceIs (JS.Finite x), Some q => Qeq_bool q x
  | _, _ => false
  end.

(** [$gte], [$lte] and [$lt] on a date field; an absent field and an
    invalid bound satisfy none. *)
Definition date_ge (d : option Z) (bound : JS.Date) : bool :=
  match d, bound with
  | Some t, JS.TimeValue b => b <=? t
  | _, _ => false
  end.

Definition date_le (d : option Z) (bound : JS.Date) : bool :=
  match d, bound with
  | Some t, JS.TimeValue b => t <=? b
  | _, _ => false
  end.

Definition date_lt (d : option Z) (bound : JS.Date) : bool :=
  match d, bound with
  | Some t, JS.TimeValue b => t <? b
  | _, _ => false
  end.

(** Whether a document satisfies a filter. *)
Definition matches (f : Filter) (t : Transaction) : bool :=
  match f with
  | DateBetween gte lte => date_ge (dateOfSale t) gte && date_le (dateOfSale t) lte
  | DateBefore lt => date_lt (dateOfSale t) lt
  | AnyOf tr dr pc =>
      regex_field tr (title t) || regex_field dr (description t)
      || price_matches pc (price t)
  | AnyOfTests titleTest descriptionTest pc =>
      text_field titleTest (title t) || text_field descriptionTest (description t)
      || price_matches pc (price t)
  end.

Definition select (f : Filter) (ds : list Transaction) : list Transaction :=
  List.filter (matches f) ds.

(** The cursor's [limit(n)]: 0 means no limit, a negative limit counts as
    its absolute value. *)
Definition apply_limit (limit : option Z) (ds : list Transaction) : list Transaction :=
  match limit with
  | None => ds
  | Some n => if n =? 0 then ds else firstn (Z.to_nat (Z.abs n)) ds
  end.

(** The cursor's [skip(n)] for a non-negative [n]. *)
Definition apply_skip (skip : option Z) (ds : list Transaction) : list Transaction :=
  match skip with
  | None => ds
  | Some n => skipn (Z.to_nat n) ds
  end.

(** [$sum: "$price"]: absent prices add nothing. The prices are added as
    exact numbers; the store adds in double precision, which gives the same
    total when no rounding occurs, as for whole numbers up to 2^53. *)
Definition sum_price (ds : list Transaction) : Q :=
  fold_left (fun acc t => match price t with Some q => (acc + q)%Q | None => acc end) ds 0%Q.

(** Adds one to the group of [key], appending a new group when there is none. *)
Fixpoint bump (key : option string) (gs : list Group) : list Group :=
  match gs with
  | [] => [ {| _id := key; count := 1 |} ]
  | g :: gs' =>
      if bool_decide (_id g = key)
      then {| _id := _id g; count := S (count g) |} :: gs'
      else g :: bump key gs'
  end.

(** Groups in order of first occurrence. *)
Definition group_by_category (ds : list Transaction) : list Group :=
  fold_left (fun gs t => bump (category t) gs) ds [].

(** An awaited store call: resolves to a value or rejects with an error. *)
Inductive outcome (A : Type) :=
| Resolved (a : A)
| Rejected (error : string).
Arguments Resolved {A} a.
Arguments Rejected {A} error.

(** Asynchronous code over a store: the operations issued so far are
    threaded through. *)
Definition Async (A : Type) : Type := Db -> list Op -> outcome A * list Op.

Definition ret {A} (a : A) : Async A := fun _ log => (Resolved a, log).

(** [await] in sequence: a rejection skips the rest. *)
Definition bind {A B} (m : Async A) (k : A -> Async B) : Async B :=
  fun db log =>
    match m db log with
    | (Resolved a, log') => k a db log'
    | (Rejected e, log') => (Rejected e, log')
    end.

(** [try { ... } catch (error) { ... }]. *)
Definition try_catch {A} (m : Async A) (handler : string -> A) : Async A :=
  fun db log =>
    match m db log with
    | (Resolved a, log') => (Resolved a, log')
    | (Rejected e, log') => (Resolved (handler e), log')
    end.

(** Issues [op]: rejected when the store says so, answered by [answer]
    otherwise. *)
Definition issue {A} (op : Op) (answer : list Transaction -> outcome A) : Async A :=
  fun db log =>
    (match fault db (length log) op with
     | Some e => Rejected e
     | None => answer (docs db)
     end, log ++ [op]).

(** [Transaction.find(f).skip(s).limit(l)]; the store refuses a negative
    skip (the wording of its error is not modelled). A filter the client
    library cannot cast is rejected through [fault]. *)
Definition find (f : Filter) (skip limit : option Z) : Async (list Transaction) :=
  issue (Find f skip limit) (fun ds =>
    match skip with
    | Some n => if n <? 0 then Rejected "skip must be non-negative"
                else Resolved (apply_limit limit (apply_skip skip (select f ds)))
    | None => Resolved (apply_limit limit (select f ds))
    end).

(** [Transaction.countDocuments(f)]; a filter the client library cannot
    cast is rejected through [fault]. *)
Definition countDocuments (f : Filter) : Async nat :=
  issue (CountDocuments f) (fun ds => Resolved (length (select f ds))).

(** [Transaction.aggregate] with a [$match] and the [$sum] of the prices in
    one group: no output document when nothing matches. *)
Definition aggregate_sum (f : Filter) : Async (list Q) :=
  issue (SumPrice f) (fun ds =>
    match select f ds with
    | [] => Resolved []
    | sel => Resolved [sum_price sel]
    end).

(** [Transaction.aggregate] with a [$match] and a count per category. *)
Definition aggregate_group (f : Filter) : Async (list Group) :=
  issue (CountByCategory f) (fun ds => Resolved (group_by_category (select f ds))).

End Store.

#[global] Instance Async_ret : MRet Store.Async := @Store.ret.
#[global] Instance Async_bind : MBind Store.Async := fun A B k m => Store.bind m k.

(** ** The router: month table and date range *)

Definition monthMap_entries : list (string * Z) :=
  [ ("january", 0); ("february", 1); ("march", 2); ("april", 3);
    ("may", 4); ("june", 5); ("july", 6); ("august", 7);
    ("september", 8); ("october", 9); ("november", 10); ("december", 11) ]%string.

Definition monthMap : gmap string Z := list_to_map monthMap_entries.

Record DateRange := { startDate : JS.Date; endDate : JS.Date }.

(** [getStartEndDate]; [year] is what [new Date().getFullYear()] returns at
    the time of the call. *)
Definition getStartEndDate (year : Z) (month : string) : DateRange :=
  let monthIndex := JS.get monthMap month in
  {| startDate := JS.new_Date year (JS.ToNumber monthIndex) 1;
     endDate := JS.new_Date year (JS.plus_one monthIndex) 0 |}.

(** ** Responses *)

Record Statistics := { totalSales : Q; soldItems : nat; notSoldItems : nat }.

Record PriceRange := { range : string; count : nat }.

Record Combined := {
  statistics : Statistics;
  barChart : list PriceRange;
  pieChart : list Store.Group;
}.

Record Page := { transactions : list Transaction; total : nat }.

Inductive Body :=
| StatisticsBody (s : Statistics)
| BarChartBody (b : list PriceRange)
| PieChartBody (p : list Store.Group)
| CombinedBody (c : Combined)
| PageBody (p : Page)
| Message (message : string) (error : option string).

Record Response := { status : Z; body : Body }.

(** [res.json(b)]. *)
Definition json (b : Body) : Response := {| status := 200; body := b |}.

(** [res.status(400).json({ message: 'Invalid month' })]. *)
Definition invalid_month : Response :=
  {| status := 400; body := Message "Invalid month" None |}.

(** [res.status(500).json({ message, error: error.message })]. *)
Definition failure (message error : string) : Response :=
  {| status := 500; body := Message message (Some error) |}.

(** ** Monthly reports *)

(** [totalSales[0]?.total || 0]. *)
Definition total_or_zero (totalSales : list Q) : Q :=
  match totalSales with
  | [] => 0%Q
  | t :: _ => if Qeq_bool t 0 then 0%Q else t
  end.

Definition priceRanges : list PriceRange :=
  [ {| range := "0-100"; count := 0 |};
    {| range := "101-200"; count := 0 |};
    {| range := "201-300"; count := 0 |};
    {| range := "301-400"; count := 0 |};
    {| range := "401-500"; count := 0 |};
    {| range := "501-600"; count := 0 |};
    {| range := "601-700"; count := 0 |};
    {| range := "701-800"; count := 0 |};
    {| range := "801-900"; count := 0 |};
    {| range := "901-above"; count := 0 |} ].

(** [price <= bound]; the comparison is false for an absent price. *)
Definition price_le (p : option Q) (bound : Z) : bool :=
  match p with
  | Some q => Qle_bool q (inject_Z bound)
  | None => false
  end.

(** The index the [if]/[else if] chain selects. *)
Definition bucket (p : option Q) : nat :=
  if price_le p 100 then 0%nat
  else if price_le p 200 then 1%nat
  else if price_le p 300 then 2%nat
  else if price_le p 400 then 3%nat
  else if price_le p 500 then 4%nat
  else if price_le p 600 then 5%nat
  else if price_le p 700 then 6%nat
  else if price_le p 800 then 7%nat
  else if price_le p 900 then 8%nat
  else 9%nat.

(** [ranges[i].count++]. *)
Definition increment (r : PriceRange) : PriceRange :=
  {| range := range r; count := S (count r) |}.

(** The [forEach] over the transactions found. *)
Definition tally (found : list Transaction) (ranges : list PriceRange) : list PriceRange :=
  fold_left (fun rs t => alter increment (bucket (price t)) rs) found ranges.

Definition getStatistics (year : Z) (month : string) : Store.Async Statistics :=
  let r := getStartEndDate year month in
  soldItems ← Store.countDocuments (Store.DateBetween (startDate r) (endDate r));
  totalSales ← Store.aggregate_sum (Store.DateBetween (startDate r) (endDate r));
  notSoldItems ← Store.countDocuments (Store.DateBefore (startDate r));
  mret {| totalSales := total_or_zero totalSales;
          soldItems := soldItems;
          notSoldItems := notSoldItems |}.

Definition getBarChart (year : Z) (month : string) : Store.Async (list PriceRange) :=
  let r := getStartEndDate year month in
  found ← Store.find (Store.DateBetween (startDate r) (endDate r)) None None;
  mret (tally found priceRanges).

Definition getPieChart (year : Z) (month : string) : Store.Async (list Store.Group) :=
  let r := getStartEndDate year month in
  Store.aggregate_group (Store.DateBetween (startDate r) (endDate r)).

(** ** Route handlers

    Each handler takes the year the clock shows and the request's parameter,
    and answers with a response; [run] gives the response and the store
    operations the request issued. *)

(** The guard [if (!monthMap[month]) return res.status(400)...]. *)
Definition rejected_month (month : string) : bool :=
  negb (JS.truthy (JS.get monthMap month)).

(** GET /statistics/:month *)
Definition route_statistics (year : Z) (param : string) : Store.Async Response :=
  let month := JS.toLowerCase param in
  if rejected_month month then mret invalid_month
  else
    let r := getStartEndDate year month in
    Store.try_catch
      (soldItems ← Store.countDocuments (Store.DateBetween (startDate r) (endDate r));
       totalSales ← Store.aggregate_sum (Store.DateBetween (startDate r) (endDate r));
       notSoldItems ← Store.countDocuments (Store.DateBefore (startDate r));
       mret (json (StatisticsBody
                     {| totalSales := total_or_zero totalSales;
                        soldItems := soldItems;
                        notSoldItems := notSoldItems |})))
      (failure "Failed to retrieve statistics").

(** GET /bar-chart/:month *)
Definition route_bar_chart (year : Z) (param : string) : Store.Async Response :=
  let month := JS.toLowerCase param in
  if rejected_month month then mret invalid_month
  else
    let r := getStartEndDate year month in
    Store.try_catch
      (found ← Store.find (Store.DateBetween (startDate r) (endDate r)) None None;
       mret (json (BarChartBody (tally found priceRanges))))
      (failure "Failed to retrieve bar chart data").

(** GET /pie-chart/:month *)
Definition route_pie_chart (year : Z) (param : string) : Store.Async Response :=
  let month := JS.toLowerCase param in
  if rejected_month month then mret invalid_month
  else
    let r := getStartEndDate year month in
    Store.try_catch
      (categories ← Store.aggregate_group (Store.DateBetween (startDate r) (endDate r));
       mret (json (PieChartBody categories)))
      (failure "Failed to retrieve pie chart data").

(** GET /combined/:month *)
Definition route_combined (year : Z) (param : string) : Store.Async Response :=
  let month := JS.toLowerCase param in
  if rejected_month month then mret invalid_month
  else
    Store.try_catch
      (statistics ← getStatistics year month;
       barChart ← getBarChart year month;
       pieChart ← getPieChart year month;
       mret (json (CombinedBody
                     {| statistics := statistics;
                        barChart := barChart;
                        pieChart := pieChart |})))
      (failure "Failed to retrieve combined data").

(** [req.query] of GET /transactions; numeric parameters are the integers
    they convert to. *)
Record ListQuery := {
  page : option Z;
  perPage : option Z;
  search : option string;
}.

(** The constant [query] of the handler; [None] when the search string is
    outside the interpreted pattern syntax. *)
Definition transactions_query (search : string) : option Store.Filter :=
  match JS.new_RegExp search, JS.new_RegExp search with
  | Some titleRe, Some descriptionRe =>
      Some (Store.AnyOf titleRe descriptionRe
              (if bool_decide (search = ""%string) then Store.PriceExists
               else Store.PriceIs (JS.parseFloat search)))
  | _, _ => None
  end.

(** GET /transactions *)
Definition route_transactions (q : ListQuery) : option (Store.Async Response) :=
  let page := default 1 (page q) in
  let perPage := default 10 (perPage q) in
  let search := default ""%string (search q) in
  query ← transactions_query search;
  Some (Store.try_catch
          (transactions ← Store.find query (Some ((page - 1) * perPage)) (Some perPage);
           total ← Store.countDocuments query;
           mret (json (PageBody {| transactions := transactions; total := total |})))
          (failure "Failed to retrieve transactions")).

(** A pattern engine: [engine source] is [None] when
    [new RegExp(source, 'i')] throws, and otherwise the test that the
    compiled pattern performs on a text. *)
Definition Engine : Type := string -> option (string -> bool).

(** The constant [query] of the handler, for any pattern engine. *)
Definition transactions_query_with (engine : Engine) (search : string) : option Store.Filter :=
  match engine search, engine search with
  | Some titleRe, Some descriptionRe =>
      Some (Store.AnyOfTests titleRe descriptionRe
              (if bool_decide (search = ""%string) then Store.PriceExists
               else Store.PriceIs (JS.parseFloat search)))
  | _, _ => None
  end.

(** GET /transactions, for any pattern engine; [None] when the pattern does
    not compile: the exception leaves the handler before its [try]. *)
Definition route_transactions_with (engine : Engine) (q : ListQuery)
  : option (Store.Async Response) :=
  let page := default 1 (page q) in
  let perPage := default 10 (perPage q) in
  let search := default ""%string (search q) in
  query ← transactions_query_with engine search;
  Some (Store.try_catch
          (transactions ← Store.find query (Some ((page - 1) * perPage)) (Some perPage);
           total ← Store.countDocuments query;
           mret (json (PageBody {| transactions := transactions; total := total |})))
          (failure "Failed to retrieve transactions")).

(** The engine that interprets literal characters and the wildcard. *)
Definition literal_engine : Engine :=
  fun source => JS.test <$> JS.new_RegExp source.

(** Serves one request: the response, and the operations sent to the store. *)
Definition run (h : Store.Async Response) (db : Store.Db) : option Response * list Store.Op :=
  match h db [] with
  | (Store.Resolved r, log) => (Some r, log)
  | (Store.Rejected _, log) => (None, log)
  end.

(** ** Start-up ([server.js]) *)

Module Server.

Inductive Effect :=
| Listen (port : string)
| ConsoleLog (text : string)
| ConsoleError (text : string).

(** [process.env.PORT || 5000]. *)
Definition PORT (env_PORT : option string) : string :=
  match env_PORT with
  | Some p => if bool_decide (p = ""%string) then "5000"%string else p
  | None => "5000"%string
  end.

(** [mongoose.connect(...).then(() => app.listen(PORT, ...)).catch(...)]:
    what the process does once the connection attempt settles. *)
Definition start (env_PORT : option string) (connect : Store.outcome unit) : list Effect :=
  match connect with
  | Store.Resolved _ =>
      [ Listen (PORT env_PORT);
        ConsoleLog ("Server is running on port " ++ PORT env_PORT) ]
  | Store.Rejected err => [ ConsoleError ("Database connection error: " ++ err) ]
  end.

Definition accepting (trace : list Effect) : bool :=
  existsb (fun e => match e with Listen _ => true | _ => false end) trace.

End Server.

(** * Vocabulary of the properties *)

(** ** Months and dates *)

(** The twelve full English month names. *)
Definition month_names : list string := monthMap_entries.*1.

(** A request parameter that names a month, in any letter case. *)
Definition param_is_month (param : string) : Prop :=
  JS.toLowerCase param ∈ month_names.

(** The names that pass the guard of the month-scoped routes. *)
Definition passing_names : list string :=
  [ "february"; "march"; "april"; "may"; "june"; "july"; "august";
    "september"; "october"; "november"; "december";
    "constructor"; "__proto__" ]%string.

(** A store that serves every operation. *)
Definition available (db : Store.Db) : Prop :=
  ∀ n op, Store.fault db n op = None.

(** The lengths of the twelve months. *)
Definition month_length (leap : bool) (i : Z) : Z :=
  match i with
  | 1 => if leap then 29 else 28
  | 3 | 5 | 8 | 10 => 30
  | _ => 31
  end.

(** The instant [t] falls on a calendar day of month [i] (0-11) of [year]:
    from the first day at 00:00:00 up to, not including, the first day of
    the following month. *)
Definition in_month (year i t : Z) : bool :=
  (JS.MakeDate (JS.MakeDay year i 1) 0 <=? t)
  && (t <? JS.MakeDate (JS.MakeDay year (i + 1) 1) 0).

(** The years for which the clock's year is taken as it is. *)
Definition clock_year (year : Z) : Prop := 1970 ≤ year ≤ 275759.

(** ** Reports *)

(** The number of records of [found] that the chain sends to bucket [k]. *)
Definition in_bucket (k : nat) (found : list Transaction) : nat :=
  length (List.filter (fun t => Nat.eqb (bucket (price t)) k) found).

(** The ten labels, in order. *)
Definition labels : list string :=
  [ "0-100"; "101-200"; "201-300"; "301-400"; "401-500"; "501-600";
    "601-700"; "701-800"; "801-900"; "901-above" ]%string.

(** The filter every monthly report selects by. *)
Definition month_range (year : Z) (month : string) : Store.Filter :=
  let r := getStartEndDate year month in
  Store.DateBetween (startDate r) (endDate r).

(** The records dated in [[startDate, endDate]]. *)
Definition in_range (year : Z) (month : string) (db : Store.Db) : list Transaction :=
  Store.select (month_range year month) (Store.docs db).

(** The records dated strictly before [startDate]. *)
Definition before_range (year : Z) (month : string) (db : Store.Db) : list Transaction :=
  Store.select (Store.DateBefore (startDate (getStartEndDate year month))) (Store.docs db).

(** The sum of the prices of the records that have one. *)
Definition price_sum (ds : list Transaction) : Q :=
  fold_right (fun t acc => (default 0%Q (price t) + acc)%Q) 0%Q ds.

(** The statistics of a month, read off the collection. *)
Definition statistics_of (year : Z) (month : string) (db : Store.Db) : Statistics :=
  {| totalSales :=
       total_or_zero
         match in_range year month db with
         | [] => []
         | sel => [Store.sum_price sel]
         end;
     soldItems := length (in_range year month db);
     notSoldItems := length (before_range year month db) |}.

Definition statistics_ops (year : Z) (month : string) : list Store.Op :=
  [ Store.CountDocuments (month_range year month);
    Store.SumPrice (month_range year month);
    Store.CountDocuments (Store.DateBefore (startDate (getStartEndDate year month))) ].

(** ** Search and paging *)

(** [text] contains [needle], letter case aside. *)
Definition contains_ci (text needle : string) : Prop :=
  ∃ pre post,
    JS.toLowerCase text = String.append pre (String.append (JS.toLowerCase needle) post).

Definition field_contains (field : option string) (needle : string) : Prop :=
  ∃ s, field = Some s ∧ contains_ci s needle.

(** The price branch: any price when the search string is empty, the price
    [parseFloat(search)] otherwise. *)
Definition price_branch (search : string) (p : option Q) : Prop :=
  if bool_decide (search = ""%string) then is_Some p
  else ∃ q x, p = Some q ∧ JS.parseFloat search = JS.Finite x ∧ (q == x)%Q.

(** The predicate in the words of the specification: title contains the
    search string, or description contains it, or the price branch holds. *)
Definition search_matches (search : string) (t : Transaction) : Prop :=
  field_contains (title t) search
  ∨ field_contains (description t) search
  ∨ price_branch search (price t).

(** A search string without any pattern syntax character. *)
Fixpoint plain (search : string) : bool :=
  match search with
  | EmptyString => true
  | String c s => negb (JS.is_syntax_char c) && plain s
  end.

(** The pattern that reads [s] literally. *)
Fixpoint literal (s : string) : JS.RegExp :=
  match s with
  | EmptyString => []
  | String c s' => JS.Lit c :: literal s'
  end.

(** A record with a title and nothing else. *)
Definition only_title (s : string) : Transaction :=
  {| title := Some s; description := None; price := None;
     dateOfSale := None; category := None |}.

(** A record the empty search finds: one with a title, a description or a
    price. *)
Definition present {A : Type} (field : option A) : bool :=
  match field with
  | Some _ => true
  | None => false
  end.

Definition has_searchable_field (t : Transaction) : bool :=
  present (title t) || present (description t) || present (price t).

(** ** Sample stores *)

(** A store that never rejects an operation. *)
Definition always_up : nat → Store.Op → option string := fun _ _ => None.

(** A store that rejects the fourth operation of a request. *)
Definition fourth_fails : nat → Store.Op → option string :=
  fun n _ => if Nat.eqb n 3 then Some "store unreachable"%string else None.

(** A complete record sold at [hour] o'clock on day [day] of month [i] of 2026. *)
Definition sale (p : Z) (i day hour : Z) (cat : string) : Transaction :=
  {| title := Some "item"%string;
     description := Some "sold"%string;
     price := Some (inject_Z p);
     dateOfSale := Some (JS.MakeDate (JS.MakeDay 2026 i day) (hour * 3600000));
     category := Some cat |}.

(** A record with a category and nothing else. *)
Definition category_only : Transaction :=
  {| title := None; description := None; price := None;
     dateOfSale := None; category := Some "misc"%string |}.

Definition march_sales : list Transaction :=
  [ sale (-5) 2 1 0 "toys"; sale 100 2 5 10 "toys"; sale 101 2 20 9 "books";
    sale 950 2 31 0 "books"; sale 70 2 31 12 "toys"; sale 40 1 28 23 "books" ].

Definition march_db : Store.Db := {| Store.docs := march_sales; Store.fault := always_up |}.

Definition flaky_db : Store.Db := {| Store.docs := march_sales; Store.fault := fourth_fails |}.

Definition sparse_db : Store.Db :=
  {| Store.docs := [category_only]; Store.fault := always_up |}.

(** Serves a transactions request: the response, when the route builds a query. *)
Definition serve_transactions (q : ListQuery) (db : Store.Db) : option Response :=
  h ← route_transactions q; fst (run h db).

(** * The seed loader ([GET /initialize]) *)

Module Seed.

(** One element of the fetched array, as the mapping callback reads it;
    [item_dateOfSale] is the date that [new Date(item.dateOfSale)]
    constructs from it. *)
Record Item := {
  item_title : option string;
  item_description : option string;
  item_price : option Q;
  item_dateOfSale : JS.Date;
  item_category : option string;
}.

(** [response.data]: an array of items, or something without a [map]. *)
Inductive Payload :=
| Items (items : list Item)
| NotAnArray.

(** What the request meets outside the handler: how the fetch settles, and,
    if the store breaks off the bulk insert, with which error and after how
    many documents written. *)
Record World := {
  fetched : Store.outcome Payload;
  write_fault : option (string * nat);
}.

(** The schema's cast of a mapped object: the date must be a valid one. *)
Definition cast (item : Item) : option Transaction :=
  match item_dateOfSale item with
  | JS.TimeValue t =>
      Some {| title := item_title item;
              description := item_description item;
              price := item_price item;
              dateOfSale := Some t;
              category := item_category item |}
  | JS.Invalid => None
  end.

(** [Transaction.insertMany(transactions)]: every document is validated
    before any is sent; the documents are then appended in order, up to the
    point where the store breaks off. The wording of a validation error is
    not modelled. *)
Definition insertMany (w : World) (items : list Item) (docs : list Transaction)
  : Store.outcome unit * list Transaction :=
  match mapM cast items with
  | None => (Store.Rejected "validation failed"%string, docs)
  | Some ts =>
      match write_fault w with
      | None => (Store.Resolved tt, docs ++ ts)
      | Some (e, n) => (Store.Rejected e, docs ++ firstn n ts)
      end
  end.

(** The handler: the response and the collection it leaves behind. The
    wording of the error raised by [response.data.map] on a non-array is not
    modelled. *)
Definition initialize (w : World) (docs : list Transaction) : Response * list Transaction :=
  let failed := failure "Failed to initialize database" in
  match fetched w with
  | Store.Rejected e => (failed e, docs)
  | Store.Resolved NotAnArray => (failed "response.data.map is not a function"%string, docs)
  | Store.Resolved (Items items) =>
      match insertMany w items docs with
      | (Store.Resolved _, docs') =>
          ({| status := 200; body := Message "Database initialized successfully" None |}, docs')
      | (Store.Rejected e, docs') => (failed e, docs')
      end
  end.

End Seed.

(** * Further vocabulary *)

(** The number of records of [ds] in category [c]. *)
Definition in_category (c : option string) (ds : list Transaction) : nat :=
  length (List.filter (fun t => bool_decide (category t = c)) ds).

(** The transactions and the total of a 200 answer of the list route. *)
Definition page_of (r : option Response) : option Page :=
  match r with
  | Some {| status := _; body := PageBody p |} => Some p
  | _ => None
  end.

(** The decimal numeral of a sequence of digits (each below 10). *)
Fixpoint numeral (digits : list nat) : string :=
  match digits with
  | [] => EmptyString
  | d :: ds => String (ascii_of_nat (48 + d)) (numeral ds)
  end.

(** The number a sequence of digits denotes, on top of [acc]. *)
Fixpoint numeral_value (acc : Z) (digits : list nat) : Z :=
  match digits with
  | [] => acc
  | d :: ds => numeral_value (10 * acc + Z.of_nat d) ds
  end.

(** A record with a price and nothing else. *)
Definition only_price (p : Q) : Transaction :=
  {| title := None; description := None; price := Some p;
     dateOfSale := None; category := None |}.

(** A store that rejects the second operation of a request. *)
Definition second_fails : nat → Store.Op → option string :=
  fun n _ => if Nat.eqb n 1 then Some "store unreachable"%string else None.

Definition second_fails_db : Store.Db :=
  {| Store.docs := march_sales; Store.fault := second_fails |}.

(** A feed of two items dated in March 2026. *)
Definition feed : list Seed.Item :=
  [ {| Seed.item_title := Some "lamp"%string; Seed.item_description := Some "desk lamp"%string;
       Seed.item_price := Some 30%Q;
       Seed.item_dateOfSale := JS.TimeValue (JS.MakeDate (JS.MakeDay 2026 2 10) 0);
       Seed.item_category := Some "home"%string |};
    {| Seed.item_title := Some "mug"%string; Seed.item_description := None;
       Seed.item_price := Some 8%Q;
       Seed.item_dateOfSale := JS.TimeValue (JS.MakeDate (JS.MakeDay 2026 2 11) 0);
       Seed.item_category := Some "home"%string |} ].

Definition good_world : Seed.World :=
  {| Seed.fetched := Store.Resolved (Seed.Items feed); Seed.write_fault := None |}.

(** The operations of the combined route, in the order it issues them. *)
Definition combined_ops (year : Z) (month : string) : list Store.Op :=
  statistics_ops year month
  ++ [ Store.Find (month_range year month) None None;
       Store.CountByCategory (month_range year month) ].

(** The store serves the first [k] operations of [ops]. *)
Definition serves_first (db : Store.Db) (ops : list Store.Op) (k : nat) : Prop :=
  ∀ j op, (j < k)%nat → ops !! j = Some op → Store.fault db j op = None.

(** The count a list of groups reports for category [c]: that of its first
    group with this [_id], 0 when there is none. *)
Fixpoint reported_count (c : option string) (gs : list Store.Group) : nat :=
  match gs with
  | [] => 0
  | g :: gs' => if bool_decide (Store._id g = c) then Store.count g else reported_count c gs'
  end.

(** The records page [pg] of size [pp] shows for [search]; none when the
    request does not answer with a page. *)
Definition listed (pg pp : Z) (s : string) (db : Store.Db) : list Transaction :=
  match page_of (serve_transactions {| page := Some pg; perPage := Some pp; search := Some s |} db) with
  | Some p => transactions p
  | None => []
  end.

(** A store whose only record, sold in March 2026, has no price. *)
Definition unpriced_db : Store.Db :=
  {| Store.docs :=
       [ {| title := Some "gift"%string; description := None; price := None;
            dateOfSale := Some (JS.MakeDate (JS.MakeDay 2026 2 3) 0);
            category := None |} ];
     Store.fault := always_up |}.

(** The March collection after one seeding from the feed. *)
Definition seeded_db : Store.Db :=
  {| Store.docs := snd (Seed.initialize good_world (Store.docs march_db));
     Store.fault := always_up |}.

(** * Casting and exact sums *)

(** The client library's cast of a filter: it refuses a NaN price and an
    invalid date bound. *)
Definition castable_filter (f : Store.Filter) : bool :=
  match f with
  | Store.DateBetween (JS.TimeValue _) (JS.TimeValue _) => true
  | Store.DateBetween _ _ => false
  | Store.DateBefore (JS.TimeValue _) => true
  | Store.DateBefore _ => false
  | Store.AnyOf _ _ (Store.PriceIs JS.NaN) => false
  | Store.AnyOf _ _ _ => true
  | Store.AnyOfTests _ _ (Store.PriceIs JS.NaN) => false
  | Store.AnyOfTests _ _ _ => true
  end.

Definition castable (op : Store.Op) : bool :=
  match op with
  | Store.Find f _ _ | Store.CountDocuments f | Store.SumPrice f | Store.CountByCategory f =>
      castable_filter f
  end.

(** A client library that refuses exactly the operations it cannot cast, in
    front of a store that serves every other one (the wording of the error
    is not modelled). *)
Definition cast_errors : nat → Store.Op → option string :=
  fun _ op => if castable op then None else Some "cast failed"%string.

(** A store whose client library casts the filters. *)
Definition casting (db : Store.Db) : Prop :=
  ∀ n op, castable op = false → is_Some (Store.fault db n op).

Definition casting_db : Store.Db :=
  {| Store.docs := march_sales; Store.fault := cast_errors |}.

(** Serves a transactions request under a pattern engine. *)
Definition serve_transactions_with (engine : Engine) (q : ListQuery) (db : Store.Db)
  : option Response :=
  h ← route_transactions_with engine q; fst (run h db).

(** The sum of the magnitudes of the prices. *)
Definition price_magnitude (ds : list Transaction) : Q :=
  fold_right (fun t acc => (Qabs (default 0%Q (price t)) + acc)%Q) 0%Q ds.

(** The prices of [ds] are whole numbers whose magnitudes add up to at most
    2^53: every sum of such prices is a whole number of at most that
    magnitude, so adding them in double precision is exact, in any order. *)
Definition exact_in_doubles (ds : list Transaction) : Prop :=
  (∀ t q, In t ds → price t = Some q → ∃ z, (q == inject_Z z)%Q)
  ∧ (price_magnitude ds <= inject_Z (2 ^ 53))%Q.

(** A complete record titled "125". *)
Definition part_125 : Transaction :=
  {| title := Some "125"%string;
     description := Some "bolt"%string;
     price := Some 9%Q;
     dateOfSale := Some (JS.MakeDate (JS.MakeDay 2026 2 12) 0);
     category := Some "parts"%string |}.

(** * Properties *)

(** ** The month table and the guard *)

Lemma monthMap_lookup (m : string) (i : Z) :
  monthMap !! m = Some i ↔ (m, i) ∈ monthMap_entries.
Proof.
  unfold monthMap. symmetry. apply elem_of_list_to_map.
  apply (bool_decide_unpack _). vm_compute. reflexivity.
Qed.

Lemma monthMap_lookup_name (m : string) :
  is_Some (monthMap !! m) ↔ m ∈ month_names.
Proof.
  split.
  - intros [i Hi]. apply monthMap_lookup in Hi.
    unfold month_names. apply list_elem_of_fmap. exists (m, i). auto.
  - intros H. unfold month_names in H. apply list_elem_of_fmap in H as [[m' i] [-> H]].
    exists i. apply monthMap_lookup. exact H.
Qed.

Lemma lower_ascii_idem (c : ascii) : JS.lower_ascii (JS.lower_ascii c) = JS.lower_ascii c.
Proof.
  destruct c as [[] [] [] [] [] [] [] []]; vm_compute; reflexivity.
Qed.

Lemma toLowerCase_idem (s : string) : JS.toLowerCase (JS.toLowerCase s) = JS.toLowerCase s.
Proof.
  induction s as [|c s IH]; simpl; [reflexivity|].
  rewrite lower_ascii_idem, IH. reflexivity.
Qed.

(** Decides an equivalence between a closed boolean equation and a closed
    membership. *)
Ltac closed_iff :=
  split; intros ?H;
  first [ (vm_compute; reflexivity)
        | (apply (bool_decide_unpack _); vm_compute; reflexivity)
        | (exfalso; match goal with H : _ ∈ _ |- _ =>
             apply (bool_decide_pack _) in H; vm_compute in H; destruct H end)
        | (exfalso; match goal with H : _ = _ |- _ => vm_compute in H; discriminate H end) ].

(** The guard lets a lowercased name through exactly when it is one of
    [passing_names]: "january" (index 0) is turned away, and the two
    lowercase names inherited from the prototype pass. *)
Lemma rejected_month_iff (param : string) :
  rejected_month (JS.toLowerCase param) = false ↔ JS.toLowerCase param ∈ passing_names.
Proof.
  pose proof (toLowerCase_idem param) as Hidem.
  set (m := JS.toLowerCase param) in *. clearbody m.
  unfold rejected_month, JS.get.
  destruct (monthMap !! m) as [i|] eqn:Hm.
  - apply monthMap_lookup in Hm. unfold monthMap_entries in Hm.
    repeat (apply elem_of_cons in Hm as [Hm | Hm];
            [inversion Hm; subst; clear; closed_iff |]).
    by apply elem_of_nil in Hm.
  - assert (Hnot : m ∉ month_names).
    { intros H. apply monthMap_lookup_name in H as [i Hi]. congruence. }
    case_bool_decide as Hp.
    + unfold JS.Object_prototype in Hp.
      repeat (apply elem_of_cons in Hp as [Hp | Hp];
        [subst m; first [ (vm_compute in Hidem; discriminate Hidem)
                        | (clear; closed_iff) ] |]).
      by apply elem_of_nil in Hp.
    + simpl. split; [discriminate|].
      intros H. exfalso. unfold passing_names in H.
      repeat (apply elem_of_cons in H as [H | H];
        [subst m; first [ (apply Hnot, (bool_decide_unpack _); vm_compute; reflexivity)
                        | (apply Hp, (bool_decide_unpack _); vm_compute; reflexivity) ] |]).
      by apply elem_of_nil in H.
Qed.

(** Unfolds the asynchronous plumbing of a handler. *)
Ltac unfold_async :=
  unfold run, route_statistics, route_bar_chart, route_pie_chart, route_combined,
    getStatistics, getBarChart, getPieChart,
    Store.try_catch, Store.find, Store.countDocuments, Store.aggregate_sum,
    Store.aggregate_group, Store.issue,
    mbind, mret, Async_bind, Async_ret, Store.bind, Store.ret in *.

(** Whatever the store does, a month-scoped route whose guard lets the name
    through answers 200 or 500, never "invalid month". *)
Lemma passing_month_not_invalid (year : Z) (param : string) (db : Store.Db) :
  rejected_month (JS.toLowerCase param) = false →
  ∀ route, route ∈ [route_statistics; route_bar_chart; route_pie_chart; route_combined] →
  ∃ r, fst (run (route year param) db) = Some r ∧ (status r = 200 ∨ status r = 500).
Proof.
  intros Hg route Hr.
  repeat (apply elem_of_cons in Hr as [-> | Hr]);
    try (by apply elem_of_nil in Hr);
    unfold_async; rewrite Hg;
    generalize (getStartEndDate year (JS.toLowerCase param)); intros r;
    repeat (match goal with
            | |- context [Store.fault ?d ?n ?o] => destruct (Store.fault d n o)
            | |- context [match Store.select ?f ?l with _ => _ end] => destruct (Store.select f l)
            end; cbn [fst snd]);
    eexists; (split; [reflexivity | cbn [status json failure]; auto]).
Qed.

(** A rejected name is answered "invalid month" without any store operation. *)
Lemma rejected_month_no_store_access (year : Z) (param : string) (db : Store.Db) :
  rejected_month (JS.toLowerCase param) = true →
  ∀ route, route ∈ [route_statistics; route_bar_chart; route_pie_chart; route_combined] →
  run (route year param) db = (Some invalid_month, []).
Proof.
  intros Hg route Hr.
  repeat (apply elem_of_cons in Hr as [-> | Hr]);
    try (by apply elem_of_nil in Hr);
    unfold_async; rewrite Hg; reflexivity.
Qed.

(** Every month-scoped route reports "invalid month" exactly for the
    lowercased names outside [passing_names], and then without store access. *)
Lemma invalid_month_iff (year : Z) (param : string) (db : Store.Db) :
  ∀ route, route ∈ [route_statistics; route_bar_chart; route_pie_chart; route_combined] →
  (fst (run (route year param) db) = Some invalid_month
     ↔ JS.toLowerCase param ∉ passing_names)
  ∧ (fst (run (route year param) db) = Some invalid_month
     → snd (run (route year param) db) = []).
Proof.
  intros route Hr.
  destruct (rejected_month (JS.toLowerCase param)) eqn:Hg.
  - rewrite (rejected_month_no_store_access year param db Hg route Hr). simpl.
    split; [|reflexivity]. split; [|reflexivity].
    intros _ Hin. apply rejected_month_iff in Hin. congruence.
  - destruct (passing_month_not_invalid year param db Hg route Hr) as (r & Hrun & Hst).
    rewrite Hrun.
    assert (Hne : Some r ≠ Some invalid_month).
    { intros [= ->]. simpl in Hst. destruct Hst; discriminate. }
    split; [split|]; try (intros H; contradiction).
    intros Hnot. exfalso. apply Hnot, rejected_month_iff, Hg.
Qed.

(** C1 (the code departs from the claim): "january" is a valid month name,
    yet every month-scoped route, statistics, bar chart, pie chart and
    combined, answers it with 400 "Invalid month" and issues no store
    operation, whatever the case of its letters: its index in [monthMap] is 0,
    which the guard [!monthMap[month]] takes for a missing entry. *)
Theorem C1_january_reported_invalid (year : Z) (param : string) (db : Store.Db) :
  JS.toLowerCase param = "january"%string →
  param_is_month param
  ∧ run (route_statistics year param) db = (Some invalid_month, [])
  ∧ run (route_bar_chart year param) db = (Some invalid_month, [])
  ∧ run (route_pie_chart year param) db = (Some invalid_month, [])
  ∧ run (route_combined year param) db = (Some invalid_month, []).
Proof.
  intros H.
  assert (Hg : rejected_month (JS.toLowerCase param) = true)
    by (rewrite H; vm_compute; reflexivity).
  split.
  { unfold param_is_month. rewrite H. apply (bool_decide_unpack _). vm_compute. reflexivity. }
  repeat split; apply rejected_month_no_store_access; try exact Hg;
    repeat constructor.
Qed.

(** ** Calendar arithmetic *)

Lemma step4 (y : Z) :
  (y + 1 - 1969) / 4 - (y - 1969) / 4 = if y mod 4 =? 0 then 1 else 0.
Proof. destruct (Z.eqb_spec (y mod 4) 0); Z.to_euclidean_division_equations; lia. Qed.

Lemma step100 (y : Z) :
  (y + 1 - 1901) / 100 - (y - 1901) / 100 = if y mod 100 =? 0 then 1 else 0.
Proof. destruct (Z.eqb_spec (y mod 100) 0); Z.to_euclidean_division_equations; lia. Qed.

Lemma step400 (y : Z) :
  (y + 1 - 1601) / 400 - (y - 1601) / 400 = if y mod 400 =? 0 then 1 else 0.
Proof. destruct (Z.eqb_spec (y mod 400) 0); Z.to_euclidean_division_equations; lia. Qed.

Lemma mod_100_4 (y : Z) : y mod 100 = 0 → y mod 4 = 0.
Proof. intros. Z.to_euclidean_division_equations; lia. Qed.

Lemma mod_400_100 (y : Z) : y mod 400 = 0 → y mod 100 = 0.
Proof. intros. Z.to_euclidean_division_equations; lia. Qed.

(** A year is as long as [DaysInYear] says. *)
Lemma DayFromYear_succ (y : Z) :
  JS.DayFromYear (y + 1) - JS.DayFromYear y = JS.DaysInYear y.
Proof.
  unfold JS.DayFromYear, JS.DaysInYear, JS.InLeapYear.
  pose proof (step4 y) as H4. pose proof (step100 y) as H100.
  pose proof (step400 y) as H400.
  pose proof (mod_100_4 y) as Ha. pose proof (mod_400_100 y) as Hb.
  destruct (Z.eqb_spec (y mod 4) 0), (Z.eqb_spec (y mod 100) 0),
    (Z.eqb_spec (y mod 400) 0); simpl; lia.
Qed.

Lemma DayFromYear_bounds (y : Z) :
  1970 ≤ y ≤ 275759 → 0 ≤ JS.DayFromYear y ∧ JS.DayFromYear (y + 1) ≤ 100000000.
Proof.
  unfold JS.DayFromYear. intros. Z.to_euclidean_division_equations; lia.
Qed.

Lemma month_index_range (m : string) (i : Z) :
  monthMap !! m = Some i → 0 ≤ i ≤ 11.
Proof.
  intros H. apply monthMap_lookup in H. unfold monthMap_entries in H.
  repeat (apply elem_of_cons in H as [H | H]; [inversion H; lia |]).
  by apply elem_of_nil in H.
Qed.

(** Splits [0 <= i <= 11] into its twelve cases. *)
Ltac month_cases i :=
  assert (i = 0 ∨ i = 1 ∨ i = 2 ∨ i = 3 ∨ i = 4 ∨ i = 5 ∨ i = 6 ∨ i = 7
          ∨ i = 8 ∨ i = 9 ∨ i = 10 ∨ i = 11) as ?Hcases by lia;
  repeat match goal with H : _ ∨ _ |- _ => destruct H as [-> | H] end; try subst i.

Lemma MakeDay_month_start (year i : Z) :
  0 ≤ i ≤ 11 →
  JS.MakeDay year i 1 = JS.DayFromYear year + JS.MonthStart (JS.InLeapYear year) i.
Proof.
  intros Hi. unfold JS.MakeDay.
  replace (i / 12) with 0 by (Z.to_euclidean_division_equations; lia).
  replace (i mod 12) with i by (Z.to_euclidean_division_equations; lia).
  replace (year + 0) with year by lia. lia.
Qed.

Lemma MakeDay_next_year (year : Z) :
  JS.MakeDay year 12 1 = JS.DayFromYear (year + 1).
Proof.
  unfold JS.MakeDay. change (12 / 12) with 1. change (12 mod 12) with 0.
  unfold JS.MonthStart. cbv beta iota zeta. lia.
Qed.

Lemma MakeDay_date (year month date : Z) :
  JS.MakeDay year month date = JS.MakeDay year month 1 + date - 1.
Proof. unfold JS.MakeDay. lia. Qed.

(** [DaysInMonth] is the usual length of the month. *)
Lemma DaysInMonth_length (year i : Z) :
  0 ≤ i ≤ 11 → JS.DaysInMonth year i = month_length (JS.InLeapYear year) i.
Proof.
  intros Hi. unfold JS.DaysInMonth.
  destruct (Z.eq_dec i 11) as [-> | Hne].
  - simpl (11 + 1). rewrite MakeDay_next_year, MakeDay_month_start by lia.
    pose proof (DayFromYear_succ year) as Hs. unfold JS.DaysInYear in Hs.
    destruct (JS.InLeapYear year); simpl; lia.
  - rewrite !MakeDay_month_start by lia.
    month_cases i; try lia; destruct (JS.InLeapYear year); simpl; lia.
Qed.

Lemma DaysInMonth_range (year i : Z) :
  0 ≤ i ≤ 11 → 28 ≤ JS.DaysInMonth year i ≤ 31.
Proof.
  intros Hi. rewrite DaysInMonth_length by lia.
  month_cases i; destruct (JS.InLeapYear year); simpl; lia.
Qed.

(** Day 0 of the following month is the last day of the month. *)
Lemma MakeDay_day_zero (year i : Z) :
  JS.MakeDay year (i + 1) 0 = JS.MakeDay year i (JS.DaysInMonth year i).
Proof.
  unfold JS.DaysInMonth.
  rewrite (MakeDay_date year (i + 1) 0), (MakeDay_date year i (_ - _)). lia.
Qed.

Lemma MakeDay_bounds (year i : Z) :
  1970 ≤ year ≤ 275759 → 0 ≤ i ≤ 11 →
  0 ≤ JS.MakeDay year i 1 ∧ JS.MakeDay year (i + 1) 1 ≤ 100000000.
Proof.
  intros Hy Hi.
  pose proof (DayFromYear_bounds year Hy) as [Hlo Hhi].
  pose proof (DayFromYear_succ year) as Hs. unfold JS.DaysInYear in Hs.
  pose proof (DaysInMonth_length year i Hi) as Hlen. unfold JS.DaysInMonth in Hlen.
  rewrite (MakeDay_month_start year i) in * by lia.
  month_cases i; destruct (JS.InLeapYear year); simpl in *; lia.
Qed.

(** ** The date range of a month *)

Lemma new_Date_value (year m date : Z) :
  clock_year year → 0 ≤ JS.MakeDay year m date ≤ 100000000 →
  JS.new_Date year (Some m) date = JS.TimeValue (JS.MakeDate (JS.MakeDay year m date) 0).
Proof.
  intros Hy Hd. unfold clock_year in Hy. unfold JS.new_Date.
  replace ((0 <=? year) && (year <=? 99)) with false
    by (symmetry; apply andb_false_iff; right; apply Z.leb_gt; lia).
  unfold JS.TimeClip, JS.MakeDate, JS.msPerDay.
  replace (Z.abs _ <=? _) with true; [reflexivity|].
  symmetry. apply Z.leb_le. lia.
Qed.

(** What [getStartEndDate] returns for a month name: the first day of the
    month and its last day, both at 00:00:00. *)
Lemma getStartEndDate_value (year : Z) (month : string) (i : Z) :
  clock_year year → monthMap !! month = Some i →
  getStartEndDate year month
  = {| startDate := JS.TimeValue (JS.MakeDate (JS.MakeDay year i 1) 0);
       endDate := JS.TimeValue (JS.MakeDate (JS.MakeDay year i (JS.DaysInMonth year i)) 0) |}.
Proof.
  intros Hy Hm. pose proof (month_index_range _ _ Hm) as Hi.
  pose proof (MakeDay_bounds year i Hy Hi) as [Hlo Hhi].
  pose proof (DaysInMonth_range year i Hi) as Hlen.
  unfold getStartEndDate, JS.get. rewrite Hm. cbn [JS.ToNumber JS.plus_one].
  rewrite !new_Date_value; try assumption.
  - rewrite MakeDay_day_zero. reflexivity.
  - rewrite MakeDay_day_zero. rewrite (MakeDay_date year i (JS.DaysInMonth year i)).
    unfold JS.DaysInMonth in *. lia.
  - unfold JS.DaysInMonth in *. lia.
Qed.

(** The records the range selects are those dated from the first day at
    00:00:00 to the last day at 00:00:00, both included. *)
Lemma month_range_matches (year : Z) (month : string) (i : Z) (t : Transaction) :
  clock_year year → monthMap !! month = Some i →
  let r := getStartEndDate year month in
  Store.matches (Store.DateBetween (startDate r) (endDate r)) t = true
  ↔ ∃ d, dateOfSale t = Some d
         ∧ JS.MakeDate (JS.MakeDay year i 1) 0 ≤ d
         ∧ d ≤ JS.MakeDate (JS.MakeDay year i (JS.DaysInMonth year i)) 0.
Proof.
  intros Hy Hm r. subst r. rewrite (getStartEndDate_value year month i Hy Hm).
  cbn [startDate endDate Store.matches]. unfold Store.date_ge, Store.date_le.
  destruct (dateOfSale t) as [d|].
  - rewrite andb_true_iff, Z.leb_le, Z.leb_le.
    split; [intros [? ?]; eauto | intros (d' & [= <-] & ? & ?); auto].
  - split; [discriminate | intros (d' & [=] & _)].
Qed.

(** C2 (the code departs from the claim): for a valid month name, in any
    letter case, [getStartEndDate] gives the first day of the month at
    00:00:00 of the current year and the last day of the month, also at
    00:00:00. Every record the range selects is dated within the month, but
    the range stops at the start of the last day: a record dated later on
    that day, such as one millisecond after [endDate], is a record of the
    month that the range leaves out. *)
Theorem C2_range_stops_at_start_of_last_day (year : Z) (param : string) (i : Z) :
  clock_year year →
  monthMap !! JS.toLowerCase param = Some i →
  let r := getStartEndDate year (JS.toLowerCase param) in
  let range := Store.DateBetween (startDate r) (endDate r) in
  let last := JS.DaysInMonth year i in
  startDate r = JS.TimeValue (JS.MakeDate (JS.MakeDay year i 1) 0)
  ∧ endDate r = JS.TimeValue (JS.MakeDate (JS.MakeDay year i last) 0)
  ∧ last = month_length (JS.InLeapYear year) i
  ∧ (∀ t, Store.matches range t = true →
          ∃ d, dateOfSale t = Some d ∧ in_month year i d = true)
  ∧ (∀ t d, dateOfSale t = Some d →
            JS.MakeDate (JS.MakeDay year i last) 0 < d →
            Store.matches range t = false)
  ∧ in_month year i (JS.MakeDate (JS.MakeDay year i last) 1) = true.
Proof.
  intros Hy Hm r range last.
  pose proof (month_index_range _ _ Hm) as Hi.
  pose proof (DaysInMonth_range year i Hi) as Hlen. fold last in Hlen.
  assert (Hnext : JS.MakeDay year (i + 1) 1 = JS.MakeDay year i last + 1).
  { rewrite (MakeDay_date year i last). unfold last, JS.DaysInMonth. lia. }
  pose proof (MakeDay_date year i last) as Hlast.
  subst r range.
  rewrite (getStartEndDate_value year _ i Hy Hm). cbn [startDate endDate].
  repeat split.
  - apply DaysInMonth_length, Hi.
  - intros t Ht.
    pose proof (proj1 (month_range_matches year _ i t Hy Hm)) as Hr.
    rewrite (getStartEndDate_value year _ i Hy Hm) in Hr. cbn [startDate endDate] in Hr.
    destruct (Hr Ht) as (d & Hd & Hlo & Hhi). exists d. split; [exact Hd|].
    unfold in_month. rewrite andb_true_iff, Z.leb_le, Z.ltb_lt.
    fold last in Hhi. rewrite Hnext. unfold JS.MakeDate, JS.msPerDay in *. lia.
  - intros t d Hd Hlate.
    cbn [Store.matches]. rewrite Hd. unfold Store.date_ge, Store.date_le.
    apply andb_false_iff. right. apply Z.leb_gt. exact Hlate.
  - unfold in_month. rewrite andb_true_iff, Z.leb_le, Z.ltb_lt.
    rewrite Hnext. fold last. unfold JS.MakeDate, JS.msPerDay in *. lia.
Qed.

(** ** The price histogram *)

Lemma bucket_lt (p : option Q) : (bucket p < 10)%nat.
Proof.
  unfold bucket.
  repeat match goal with |- context [if ?b then _ else _] => destruct b end; lia.
Qed.

Lemma tally_cons (t : Transaction) (found : list Transaction) (rs : list PriceRange) :
  tally (t :: found) rs = tally found (alter increment (bucket (price t)) rs).
Proof. reflexivity. Qed.

Lemma tally_ranges (found : list Transaction) (rs : list PriceRange) :
  range <$> tally found rs = range <$> rs.
Proof.
  revert rs. induction found as [|t found IH]; intros rs; [reflexivity|].
  rewrite tally_cons, IH.
  apply list_eq. intros j. rewrite !list_lookup_fmap.
  destruct (decide (bucket (price t) = j)) as [<- | Hne].
  - rewrite list_lookup_alter_eq. destruct (_ !! _); reflexivity.
  - rewrite list_lookup_alter_ne by exact Hne. reflexivity.
Qed.

Lemma tally_lookup (found : list Transaction) (rs : list PriceRange) (k : nat) (r : PriceRange) :
  rs !! k = Some r →
  tally found rs !! k
  = Some {| range := range r; count := count r + in_bucket k found |}.
Proof.
  revert rs r. induction found as [|t found IH]; intros rs r Hk.
  - unfold in_bucket. simpl. rewrite Nat.add_0_r, Hk. destruct r; reflexivity.
  - rewrite tally_cons. unfold in_bucket. simpl.
    destruct (Nat.eqb_spec (bucket (price t)) k) as [He | Hne].
    + erewrite IH; [|rewrite He, list_lookup_alter_eq, Hk; reflexivity].
      simpl. unfold in_bucket. f_equal. f_equal. lia.
    + erewrite IH; [|rewrite list_lookup_alter_ne by exact Hne; exact Hk].
      reflexivity.
Qed.

Lemma sum_count_alter (i : nat) (rs : list PriceRange) :
  (i < length rs)%nat →
  sum_list_with count (alter increment i rs) = S (sum_list_with count rs).
Proof.
  revert i. induction rs as [|r rs IH]; intros i Hi; simpl in Hi; [lia|].
  destruct i as [|i].
  - reflexivity.
  - change (alter increment (S i) (r :: rs)) with (r :: alter increment i rs).
    cbn [sum_list_with]. rewrite IH by lia. lia.
Qed.

Lemma tally_total (found : list Transaction) (rs : list PriceRange) :
  length rs = 10%nat →
  sum_list_with count (tally found rs) = (sum_list_with count rs + length found)%nat.
Proof.
  revert rs. induction found as [|t found IH]; intros rs Hlen; simpl length.
  - simpl. lia.
  - rewrite tally_cons, IH by (rewrite length_alter; exact Hlen).
    rewrite sum_count_alter by (rewrite Hlen; apply bucket_lt). lia.
Qed.

(** Every record lands in one bucket, so the ten counts add up. *)
Lemma in_bucket_total (found : list Transaction) :
  sum_list_with (fun k => in_bucket k found) (seq 0 10) = length found.
Proof.
  induction found as [|t found IH]; [reflexivity|].
  pose proof (bucket_lt (price t)) as Hb.
  unfold in_bucket in *. cbn [sum_list_with seq] in *. cbn [List.filter length].
  destruct (bucket (price t)) as [|[|[|[|[|[|[|[|[|[|]]]]]]]]]] eqn:E;
    cbn [Nat.eqb length]; lia.
Qed.

(** The histogram computed from the records found. *)
Lemma tally_priceRanges (found : list Transaction) :
  range <$> tally found priceRanges = labels
  ∧ (∀ k, (k < 10)%nat → count <$> tally found priceRanges !! k = Some (in_bucket k found))
  ∧ sum_list_with count (tally found priceRanges) = length found.
Proof.
  split; [rewrite tally_ranges; reflexivity|]. split.
  - intros k Hk.
    destruct (priceRanges !! k) as [r|] eqn:Hr.
    + rewrite (tally_lookup found priceRanges k r Hr). simpl. f_equal.
      assert (count r = 0%nat) as ->; [|reflexivity].
      do 10 (destruct k as [|k]; [inversion Hr; reflexivity|]). simpl in Hr. discriminate.
    + apply lookup_ge_None in Hr. simpl in Hr. lia.
  - rewrite tally_total by reflexivity. reflexivity.
Qed.

(** Bucket [k] holds the prices above [100 * k] (no lower bound for the
    first) up to and including [100 * (k + 1)] (no upper bound for the
    last). *)
Lemma bucket_spec (q : Q) (k : nat) :
  bucket (Some q) = k
  ↔ (k ≤ 9)%nat
    ∧ (k = 0%nat ∨ (inject_Z (100 * Z.of_nat k) < q)%Q)
    ∧ (k = 9%nat ∨ (q <= inject_Z (100 * (Z.of_nat k + 1)))%Q).
Proof.
  destruct q as [a d]. unfold bucket, price_le, Qle_bool, Qlt, Qle.
  cbn [Qnum Qden inject_Z].
  repeat match goal with
         | |- context [Z.leb ?x ?y] => destruct (Z.leb_spec x y)
         end;
    (split;
     [ intros <-; cbn; lia
     | intros (Hk & Hlo & Hhi);
       do 10 (destruct k as [|k]; [cbn in Hlo, Hhi; lia|]); lia ]).
Qed.

(** An absent price fails every comparison and falls in the last bucket. *)
Lemma bucket_absent : bucket None = 9%nat.
Proof. reflexivity. Qed.

(** ** The reports on a store that serves every operation *)

Lemma getStatistics_available (year : Z) (month : string) (db : Store.Db) (log : list Store.Op) :
  available db →
  getStatistics year month db log
  = (Store.Resolved (statistics_of year month db), log ++ statistics_ops year month).
Proof.
  intros Ha. unfold statistics_of, statistics_ops, in_range, before_range, month_range.
  unfold_async. generalize (getStartEndDate year month). intros r.
  rewrite !Ha. rewrite <- !app_assoc.
  destruct (Store.select _ _); reflexivity.
Qed.

Lemma getBarChart_available (year : Z) (month : string) (db : Store.Db) (log : list Store.Op) :
  available db →
  getBarChart year month db log
  = (Store.Resolved (tally (in_range year month db) priceRanges),
     log ++ [Store.Find (month_range year month) None None]).
Proof.
  intros Ha. unfold in_range, month_range. unfold_async.
  generalize (getStartEndDate year month). intros r. rewrite !Ha. reflexivity.
Qed.

Lemma getPieChart_available (year : Z) (month : string) (db : Store.Db) (log : list Store.Op) :
  available db →
  getPieChart year month db log
  = (Store.Resolved (Store.group_by_category (in_range year month db)),
     log ++ [Store.CountByCategory (month_range year month)]).
Proof.
  intros Ha. unfold in_range, month_range. unfold_async.
  generalize (getStartEndDate year month). intros r. rewrite !Ha. reflexivity.
Qed.

Lemma route_statistics_available (year : Z) (param : string) (db : Store.Db) :
  available db → rejected_month (JS.toLowerCase param) = false →
  run (route_statistics year param) db
  = (Some (json (StatisticsBody (statistics_of year (JS.toLowerCase param) db))),
     statistics_ops year (JS.toLowerCase param)).
Proof.
  intros Ha Hg. unfold statistics_of, statistics_ops, in_range, before_range, month_range.
  unfold_async. rewrite Hg. generalize (getStartEndDate year (JS.toLowerCase param)). intros r.
  rewrite !Ha. destruct (Store.select _ _); reflexivity.
Qed.

Lemma route_bar_chart_available (year : Z) (param : string) (db : Store.Db) :
  available db → rejected_month (JS.toLowerCase param) = false →
  run (route_bar_chart year param) db
  = (Some (json (BarChartBody (tally (in_range year (JS.toLowerCase param) db) priceRanges))),
     [Store.Find (month_range year (JS.toLowerCase param)) None None]).
Proof.
  intros Ha Hg. unfold in_range, month_range.
  unfold_async. rewrite Hg. generalize (getStartEndDate year (JS.toLowerCase param)). intros r.
  rewrite !Ha. reflexivity.
Qed.

Lemma route_pie_chart_available (year : Z) (param : string) (db : Store.Db) :
  available db → rejected_month (JS.toLowerCase param) = false →
  run (route_pie_chart year param) db
  = (Some (json (PieChartBody (Store.group_by_category (in_range year (JS.toLowerCase param) db)))),
     [Store.CountByCategory (month_range year (JS.toLowerCase param))]).
Proof.
  intros Ha Hg. unfold in_range, month_range.
  unfold_async. rewrite Hg. generalize (getStartEndDate year (JS.toLowerCase param)). intros r.
  rewrite !Ha. reflexivity.
Qed.

Lemma route_combined_available (year : Z) (param : string) (db : Store.Db) :
  available db → rejected_month (JS.toLowerCase param) = false →
  let month := JS.toLowerCase param in
  run (route_combined year param) db
  = (Some (json (CombinedBody
                   {| statistics := statistics_of year month db;
                      barChart := tally (in_range year month db) priceRanges;
                      pieChart := Store.group_by_category (in_range year month db) |})),
     statistics_ops year month
     ++ [Store.Find (month_range year month) None None;
         Store.CountByCategory (month_range year month)]).
Proof.
  intros Ha Hg month. subst month.
  unfold run, route_combined, Store.try_catch, mbind, mret, Async_bind, Async_ret,
    Store.bind, Store.ret.
  rewrite Hg.
  rewrite (getStatistics_available _ _ _ _ Ha).
  rewrite (getBarChart_available _ _ _ _ Ha).
  rewrite (getPieChart_available _ _ _ _ Ha).
  rewrite <- app_assoc. reflexivity.
Qed.

(** The months other than "january" pass the guard. *)
Lemma month_passes (month : string) :
  month ∈ month_names → month ≠ "january"%string → rejected_month month = false.
Proof.
  intros Hin Hne. unfold month_names, monthMap_entries in Hin. cbn in Hin.
  repeat (apply elem_of_cons in Hin as [-> | Hin]; [first [congruence | vm_compute; reflexivity] |]).
  by apply elem_of_nil in Hin.
Qed.

Lemma sum_price_from (ds : list Transaction) (acc : Q) :
  (fold_left (fun a t => match price t with Some q => a + q | None => a end) ds acc
   == acc + price_sum ds)%Q.
Proof.
  revert acc. induction ds as [|t ds IH]; intros acc; simpl.
  - ring.
  - rewrite IH. destruct (price t); simpl; ring.
Qed.

Lemma sum_price_price_sum (ds : list Transaction) :
  (Store.sum_price ds == price_sum ds)%Q.
Proof. unfold Store.sum_price. rewrite sum_price_from. ring. Qed.

(** [totalSales] is the sum of the prices in the range, 0 when it is empty. *)
Lemma totalSales_price_sum (year : Z) (month : string) (db : Store.Db) :
  (totalSales (statistics_of year month db) == price_sum (in_range year month db))%Q
  ∧ (in_range year month db = [] → totalSales (statistics_of year month db) = 0%Q).
Proof.
  unfold statistics_of. cbn [totalSales].
  destruct (in_range year month db) as [|t ds] eqn:E.
  - split; reflexivity.
  - split; [|discriminate]. unfold total_or_zero.
    destruct (Qeq_bool _ 0) eqn:Hz.
    + apply Qeq_bool_iff in Hz. rewrite <- sum_price_price_sum, Hz. reflexivity.
    + apply sum_price_price_sum.
Qed.

Lemma bump_total (key : option string) (gs : list Store.Group) :
  sum_list_with Store.count (Store.bump key gs) = S (sum_list_with Store.count gs).
Proof.
  induction gs as [|g gs IH]; simpl; [reflexivity|].
  case_bool_decide; simpl; [reflexivity | rewrite IH; lia].
Qed.

(** The category counts add up to the number of records grouped. *)
Lemma group_by_category_total (ds : list Transaction) :
  sum_list_with Store.count (Store.group_by_category ds) = length ds.
Proof.
  unfold Store.group_by_category.
  assert (H : ∀ gs, sum_list_with Store.count
                      (fold_left (fun gs t => Store.bump (category t) gs) ds gs)
                    = (sum_list_with Store.count gs + length ds)%nat).
  { induction ds as [|t ds IH]; intros gs; simpl; [lia|].
    rewrite IH, bump_total. lia. }
  rewrite H. reflexivity.
Qed.

(** C3 (the code departs from the claim at "january"): on a store that
    serves the request, the bar-chart route answers every month name other
    than "january", in any letter case, with the ten buckets '0-100' to
    '901-above' in order; bucket [k] counts the records of the date range the
    price chain sends to [k], each record going to exactly one bucket, with
    the upper price of a bucket included (100 is in '0-100', 101 in
    '101-200'), and the counts add up to the number of records in the range.
    For "january" the route answers 400 "Invalid month" instead, by the guard
    that also fails C1. *)
Theorem C3_bar_chart_buckets (year : Z) (param : string) (db : Store.Db) :
  available db →
  let month := JS.toLowerCase param in
  let found := in_range year month db in
  (month = "january"%string →
     run (route_bar_chart year param) db = (Some invalid_month, []))
  ∧ (month ∈ month_names → month ≠ "january"%string →
     ∃ bs, fst (run (route_bar_chart year param) db) = Some (json (BarChartBody bs))
           ∧ range <$> bs = labels
           ∧ (∀ k, (k < 10)%nat → count <$> bs !! k = Some (in_bucket k found))
           ∧ sum_list_with count bs = length found)
  ∧ sum_list_with (fun k => in_bucket k found) (seq 0 10) = length found
  ∧ (∀ q k, bucket (Some q) = k
            ↔ (k ≤ 9)%nat
              ∧ (k = 0%nat ∨ (inject_Z (100 * Z.of_nat k) < q)%Q)
              ∧ (k = 9%nat ∨ (q <= inject_Z (100 * (Z.of_nat k + 1)))%Q))
  ∧ bucket (Some 100%Q) = 0%nat
  ∧ bucket (Some 101%Q) = 1%nat.
Proof.
  intros Ha month found. subst month found.
  split; [|split; [|split; [|split; [|split]]]].
  - intros Hj. apply rejected_month_no_store_access; [|repeat constructor].
    rewrite Hj. vm_compute. reflexivity.
  - intros Hin Hne.
    rewrite (route_bar_chart_available year param db Ha (month_passes _ Hin Hne)).
    eexists. split; [reflexivity|]. apply tally_priceRanges.
  - apply in_bucket_total.
  - apply bucket_spec.
  - reflexivity.
  - reflexivity.
Qed.

(** The range takes the records dated from [startDate] to [endDate], both
    ends included. *)
Lemma in_range_spec (year : Z) (month : string) (db : Store.Db) (s e : Z) (t : Transaction) :
  startDate (getStartEndDate year month) = JS.TimeValue s →
  endDate (getStartEndDate year month) = JS.TimeValue e →
  In t (in_range year month db)
  ↔ In t (Store.docs db) ∧ ∃ d, dateOfSale t = Some d ∧ s ≤ d ≤ e.
Proof.
  intros Hs He. unfold in_range, month_range, Store.select.
  rewrite filter_In, Hs, He. cbn [Store.matches Store.date_ge Store.date_le].
  destruct (dateOfSale t) as [d|]; cbn.
  - rewrite andb_true_iff, !Z.leb_le.
    split; [intros [? ?]; eauto | intros [? (d' & [= <-] & ?)]; auto].
  - split; [intros [_ [=]] | intros [_ (d' & [=] & _)]].
Qed.

(** The records dated strictly before [startDate]. *)
Lemma before_range_spec (year : Z) (month : string) (db : Store.Db) (s : Z) (t : Transaction) :
  startDate (getStartEndDate year month) = JS.TimeValue s →
  In t (before_range year month db)
  ↔ In t (Store.docs db) ∧ ∃ d, dateOfSale t = Some d ∧ d < s.
Proof.
  intros Hs. unfold before_range, Store.select.
  rewrite filter_In, Hs. cbn [Store.matches Store.date_lt].
  destruct (dateOfSale t) as [d|]; cbn.
  - rewrite Z.ltb_lt.
    split; [intros [? ?]; eauto | intros [? (d' & [= <-] & ?)]; auto].
  - split; [intros [_ [=]] | intros [_ (d' & [=] & _)]].
Qed.

(** C4 (the code departs from the claim at "january"): on a store that
    serves the request, the statistics route answers every month name other
    than "january", in any letter case, with [soldItems] the number of
    records dated in [[startDate, endDate]], both ends included,
    [notSoldItems] the number of records dated strictly before [startDate],
    and [totalSales] 0 when no record is in the range and the sum of the
    prices in the range when these are whole numbers that add exactly in
    double precision (what rounding does to other sums is not stated). For
    "january" the route answers 400 "Invalid month" instead, by the guard
    that also fails C1. *)
Theorem C4_statistics_figures (year : Z) (param : string) (db : Store.Db) :
  available db →
  let month := JS.toLowerCase param in
  let sold := in_range year month db in
  let earlier := before_range year month db in
  (month = "january"%string →
     run (route_statistics year param) db = (Some invalid_month, []))
  ∧ (month ∈ month_names → month ≠ "january"%string →
     ∃ st, fst (run (route_statistics year param) db) = Some (json (StatisticsBody st))
           ∧ soldItems st = length sold
           ∧ (exact_in_doubles sold → (totalSales st == price_sum sold)%Q)
           ∧ (sold = [] → totalSales st = 0%Q)
           ∧ notSoldItems st = length earlier)
  ∧ (∀ s e t, startDate (getStartEndDate year month) = JS.TimeValue s →
              endDate (getStartEndDate year month) = JS.TimeValue e →
              (In t sold ↔ In t (Store.docs db) ∧ ∃ d, dateOfSale t = Some d ∧ s ≤ d ≤ e)
              ∧ (In t earlier ↔ In t (Store.docs db) ∧ ∃ d, dateOfSale t = Some d ∧ d < s)).
Proof.
  intros Ha month sold earlier. subst month sold earlier.
  split; [|split].
  - intros Hj. apply rejected_month_no_store_access; [|repeat constructor].
    rewrite Hj. vm_compute. reflexivity.
  - intros Hin Hne.
    rewrite (route_statistics_available year param db Ha (month_passes _ Hin Hne)).
    eexists. split; [reflexivity|].
    pose proof (totalSales_price_sum year (JS.toLowerCase param) db) as [Hsum Hzero].
    split; [reflexivity|]. split; [intros _; exact Hsum|]. split; [exact Hzero | reflexivity].
  - intros s e t Hs He. split.
    + apply in_range_spec; assumption.
    + apply before_range_spec; assumption.
Qed.

(** C9: the first bucket has no lower bound. A price is sent to bucket 0
    exactly when it is at most 100, negative prices included, and whenever
    the bar-chart route answers with buckets, its first bucket is '0-100' and
    counts every record of the date range whose price is at most 100. *)
Theorem C9_first_bucket_unbounded_below
    (year : Z) (param : string) (db : Store.Db) (bs : list PriceRange) :
  fst (run (route_bar_chart year param) db) = Some (json (BarChartBody bs)) →
  (∀ q, bucket (Some q) = 0%nat ↔ (q <= 100)%Q)
  ∧ (∀ q, (q < 0)%Q → bucket (Some q) = 0%nat)
  ∧ bs !! 0%nat
    = Some {| range := "0-100";
              count := length (List.filter (fun t => price_le (price t) 100)
                                 (in_range year (JS.toLowerCase param) db)) |}.
Proof.
  intros Hrun.
  assert (Hb : ∀ q, bucket (Some q) = 0%nat ↔ (q <= 100)%Q).
  { intros q. rewrite bucket_spec. cbn.
    split; [intros (_ & _ & [H | H]); [discriminate | exact H] | intros H; repeat split; auto; lia]. }
  split; [exact Hb|]. split.
  { intros q Hq. apply Hb. apply Qlt_le_weak. eapply Qlt_trans; [exact Hq | reflexivity]. }
  revert Hrun. unfold in_range, month_range. unfold_async.
  destruct (rejected_month (JS.toLowerCase param)); [discriminate|].
  generalize (getStartEndDate year (JS.toLowerCase param)). intros r.
  destruct (Store.fault db _ _); cbn [fst]; [discriminate|].
  intros [= <-].
  rewrite (tally_lookup _ priceRanges 0 {| range := "0-100"; count := 0 |} eq_refl).
  cbn [range count Nat.add]. unfold in_bucket. do 3 f_equal.
  apply filter_ext. intros t. unfold bucket.
  destruct (price_le (price t) 100); [reflexivity|].
  repeat match goal with |- context [if ?b then _ else _] => destruct b end; reflexivity.
Qed.

(** ** What a successful answer contains, whatever the store does *)

Lemma route_statistics_json (year : Z) (param : string) (db : Store.Db) (st : Statistics) :
  fst (run (route_statistics year param) db) = Some (json (StatisticsBody st)) →
  st = statistics_of year (JS.toLowerCase param) db.
Proof.
  unfold statistics_of, in_range, before_range, month_range. unfold_async.
  destruct (rejected_month (JS.toLowerCase param)); [discriminate|].
  generalize (getStartEndDate year (JS.toLowerCase param)). intros r.
  destruct (Store.select _ (Store.docs db)) eqn:Hsel;
    repeat (match goal with
            | |- context [Store.fault ?d ?n ?o] => destruct (Store.fault d n o)
            end; cbn [fst]; try discriminate);
    intros [= <-]; reflexivity.
Qed.

Lemma route_bar_chart_json (year : Z) (param : string) (db : Store.Db) (bs : list PriceRange) :
  fst (run (route_bar_chart year param) db) = Some (json (BarChartBody bs)) →
  bs = tally (in_range year (JS.toLowerCase param) db) priceRanges.
Proof.
  unfold in_range, month_range. unfold_async.
  destruct (rejected_month (JS.toLowerCase param)); [discriminate|].
  generalize (getStartEndDate year (JS.toLowerCase param)). intros r.
  destruct (Store.fault db _ _); cbn [fst]; [discriminate|].
  intros [= <-]. reflexivity.
Qed.

Lemma route_pie_chart_json (year : Z) (param : string) (db : Store.Db) (gs : list Store.Group) :
  fst (run (route_pie_chart year param) db) = Some (json (PieChartBody gs)) →
  gs = Store.group_by_category (in_range year (JS.toLowerCase param) db).
Proof.
  unfold in_range, month_range. unfold_async.
  destruct (rejected_month (JS.toLowerCase param)); [discriminate|].
  generalize (getStartEndDate year (JS.toLowerCase param)). intros r.
  destruct (Store.fault db _ _); cbn [fst]; [discriminate|].
  intros [= <-]. reflexivity.
Qed.

(** C10: the three monthly aggregations select by the same date range, so
    they agree on its size. Whenever the statistics, bar-chart and pie-chart
    routes answer a month with their reports, the category counts and the
    bucket counts both add up to [soldItems]; on a store that serves the
    requests the three aggregations [getStatistics], [getBarChart] and
    [getPieChart] always produce reports that agree in this way, and the
    routes answer every month name that passes their guard. *)
Theorem C10_reports_agree_on_population (year : Z) (param : string) (db : Store.Db) :
  let month := JS.toLowerCase param in
  (∀ st bs gs,
     fst (run (route_statistics year param) db) = Some (json (StatisticsBody st)) →
     fst (run (route_bar_chart year param) db) = Some (json (BarChartBody bs)) →
     fst (run (route_pie_chart year param) db) = Some (json (PieChartBody gs)) →
     sum_list_with Store.count gs = sum_list_with count bs
     ∧ sum_list_with count bs = soldItems st
     ∧ soldItems st = length (in_range year month db))
  ∧ (available db →
     ∃ st bs gs l1 l2 l3,
       getStatistics year month db [] = (Store.Resolved st, l1)
       ∧ getBarChart year month db [] = (Store.Resolved bs, l2)
       ∧ getPieChart year month db [] = (Store.Resolved gs, l3)
       ∧ sum_list_with Store.count gs = sum_list_with count bs
       ∧ sum_list_with count bs = soldItems st
       ∧ soldItems st = length (in_range year month db))
  ∧ (available db → month ∈ month_names → month ≠ "january"%string →
     ∃ st bs gs,
       fst (run (route_statistics year param) db) = Some (json (StatisticsBody st))
       ∧ fst (run (route_bar_chart year param) db) = Some (json (BarChartBody bs))
       ∧ fst (run (route_pie_chart year param) db) = Some (json (PieChartBody gs))).
Proof.
  intros month. subst month.
  assert (Hagree : ∀ found,
            sum_list_with Store.count (Store.group_by_category found)
            = sum_list_with count (tally found priceRanges)
            ∧ sum_list_with count (tally found priceRanges) = length found).
  { intros found. rewrite group_by_category_total.
    destruct (tally_priceRanges found) as (_ & _ & ->). auto. }
  split; [|split].
  - intros st bs gs Hs Hb Hp.
    apply route_statistics_json in Hs. apply route_bar_chart_json in Hb.
    apply route_pie_chart_json in Hp. subst.
    destruct (Hagree (in_range year (JS.toLowerCase param) db)) as [H1 H2].
    cbn [statistics_of soldItems]. auto.
  - intros Ha.
    destruct (Hagree (in_range year (JS.toLowerCase param) db)) as [H1 H2].
    do 6 eexists.
    rewrite (getStatistics_available _ _ _ _ Ha), (getBarChart_available _ _ _ _ Ha),
      (getPieChart_available _ _ _ _ Ha).
    repeat split; [exact H1 | exact H2].
  - intros Ha Hin Hne. pose proof (month_passes _ Hin Hne) as Hg.
    do 3 eexists.
    rewrite (route_statistics_available _ _ _ Ha Hg), (route_bar_chart_available _ _ _ Ha Hg),
      (route_pie_chart_available _ _ _ Ha Hg).
    repeat split.
Qed.

(** C7 (the code departs from the claim at "january"): on a store that
    serves the requests, the combined route answers every month name other
    than "january" with [{statistics, barChart, pieChart}] whose fields are
    the reports the statistics, bar-chart and pie-chart routes give for the
    same month, and when one of the three computations behind it is rejected
    the combined route answers 500. For "january" the combined route answers
    400 "Invalid month" instead of the three reports, by the guard that also
    fails C1. *)
Theorem C7_combined_matches_separate_reports (year : Z) (param : string) (db : Store.Db) :
  let month := JS.toLowerCase param in
  let failed := failure "Failed to retrieve combined data" in
  (month = "january"%string →
     run (route_combined year param) db = (Some invalid_month, []))
  ∧ (available db → month ∈ month_names → month ≠ "january"%string →
     ∃ st bs gs,
       fst (run (route_statistics year param) db) = Some (json (StatisticsBody st))
       ∧ fst (run (route_bar_chart year param) db) = Some (json (BarChartBody bs))
       ∧ fst (run (route_pie_chart year param) db) = Some (json (PieChartBody gs))
       ∧ fst (run (route_combined year param) db)
         = Some (json (CombinedBody {| statistics := st; barChart := bs; pieChart := gs |})))
  ∧ (rejected_month month = false →
     (∀ e l1, getStatistics year month db [] = (Store.Rejected e, l1) →
        run (route_combined year param) db = (Some (failed e), l1))
     ∧ (∀ st l1 e l2,
          getStatistics year month db [] = (Store.Resolved st, l1) →
          getBarChart year month db l1 = (Store.Rejected e, l2) →
          run (route_combined year param) db = (Some (failed e), l2))
     ∧ (∀ st l1 bs l2 e l3,
          getStatistics year month db [] = (Store.Resolved st, l1) →
          getBarChart year month db l1 = (Store.Resolved bs, l2) →
          getPieChart year month db l2 = (Store.Rejected e, l3) →
          run (route_combined year param) db = (Some (failed e), l3))).
Proof.
  intros month failed. subst month failed.
  split; [|split].
  - intros Hj. apply rejected_month_no_store_access; [|repeat constructor].
    rewrite Hj. vm_compute. reflexivity.
  - intros Ha Hin Hne. pose proof (month_passes _ Hin Hne) as Hg.
    do 3 eexists.
    rewrite (route_statistics_available _ _ _ Ha Hg), (route_bar_chart_available _ _ _ Ha Hg),
      (route_pie_chart_available _ _ _ Ha Hg), (route_combined_available _ _ _ Ha Hg).
    repeat split.
  - intros Hg.
    unfold run, route_combined, Store.try_catch, mbind, mret, Async_bind, Async_ret,
      Store.bind, Store.ret.
    rewrite Hg.
    split; [|split].
    + intros e l1 H1. rewrite H1. reflexivity.
    + intros st l1 e l2 H1 H2. rewrite H1, H2. reflexivity.
    + intros st l1 bs l2 e l3 H1 H2 H3. rewrite H1, H2, H3. reflexivity.
Qed.

(** C8: the listener is started only once the store connection has
    succeeded. When the connection attempt fails the start-up script only
    logs the error, so the service never begins accepting requests. *)
Theorem C8_no_listener_without_store (env_PORT : option string) (connect : Store.outcome unit) :
  (Server.accepting (Server.start env_PORT connect) = true
     ↔ connect = Store.Resolved tt)
  ∧ (∀ err port, connect = Store.Rejected err →
       ¬ In (Server.Listen port) (Server.start env_PORT connect))
  ∧ (∀ port, In (Server.Listen port) (Server.start env_PORT connect) →
       port = Server.PORT env_PORT ∧ connect = Store.Resolved tt).
Proof.
  destruct connect as [[]|err]; cbn.
  - split; [split; reflexivity|]. split; [discriminate|].
    intros port [[= <-] | [[=] | []]]. auto.
  - split; [split; discriminate|]. split.
    + intros err' port _ [[=] | []].
    + intros port [[=] | []].
Qed.

(** ** The search predicate *)

Lemma new_RegExp_plain (s : string) :
  plain s = true → JS.new_RegExp s = Some (literal s).
Proof.
  induction s as [|c s IH]; simpl; [reflexivity|].
  intros H. apply andb_true_iff in H as [Hc Hs]. rewrite (IH Hs).
  destruct (Ascii.eqb_spec c ".") as [-> | _]; [discriminate Hc|].
  apply negb_true_iff in Hc. rewrite Hc. reflexivity.
Qed.

Lemma matches_here_literal (needle s : string) :
  JS.matches_here (literal needle) s = true
  ↔ ∃ post, JS.toLowerCase s = String.append (JS.toLowerCase needle) post.
Proof.
  revert s. induction needle as [|x needle IH]; intros s; simpl.
  - split; [intros _; eexists; reflexivity | reflexivity].
  - destruct s as [|c s]; simpl.
    + split; [discriminate | intros [post [=]]].
    + rewrite andb_true_iff, IH. split.
      * intros [Hc [post Hp]]. apply Ascii.eqb_eq in Hc.
        exists post. rewrite Hc, Hp. reflexivity.
      * intros [post [= Hc Hp]]. split; [apply Ascii.eqb_eq; auto | eauto].
Qed.

Lemma test_literal (needle s : string) :
  JS.test (literal needle) s = true ↔ contains_ci s needle.
Proof.
  unfold contains_ci. induction s as [|c s IH].
  - cbn [JS.test]. rewrite orb_false_r, matches_here_literal. split.
    + intros [post H]. exists ""%string, post. exact H.
    + intros (pre & post & H). destruct pre as [|a pre]; [eauto|]. simpl in H. discriminate.
  - cbn [JS.test]. rewrite orb_true_iff, matches_here_literal, IH. split.
    + intros [[post H] | (pre & post & H)].
      * exists ""%string, post. exact H.
      * exists (String (JS.lower_ascii c) pre), post. simpl. rewrite H. reflexivity.
    + intros (pre & post & H). destruct pre as [|a pre].
      * left. exists post. exact H.
      * right. simpl in H. injection H as _ H. eauto.
Qed.

Lemma regex_field_literal (needle : string) (field : option string) :
  Store.regex_field (literal needle) field = true ↔ field_contains field needle.
Proof.
  unfold field_contains. destruct field as [s|]; simpl.
  - rewrite test_literal. split; [eauto | intros (s' & [= <-] & H); exact H].
  - split; [discriminate | intros (s' & [=] & _)].
Qed.

Lemma price_matches_branch (search : string) (p : option Q) :
  Store.price_matches
    (if bool_decide (search = ""%string) then Store.PriceExists
     else Store.PriceIs (JS.parseFloat search)) p = true
  ↔ price_branch search p.
Proof.
  unfold price_branch. case_bool_decide.
  - destruct p as [q|]; simpl.
    + split; [eauto | reflexivity].
    + split; [discriminate | intros [? [=]]].
  - destruct (JS.parseFloat search) as [| neg | x]; destruct p as [q|]; simpl;
      try (split; [discriminate | intros (q' & x' & ? & ? & ?); congruence]).
    rewrite Qeq_bool_iff. split.
    + intros Hq. eauto.
    + intros (q' & x' & [= <-] & [= <-] & Hq). exact Hq.
Qed.

Lemma served_search_castable (cond : Store.PriceCond) (search : string) :
  search = ""%string ∨ JS.parseFloat search ≠ JS.NaN →
  cond = (if bool_decide (search = ""%string) then Store.PriceExists
                 else Store.PriceIs (JS.parseFloat search)) →
  match cond with Store.PriceIs JS.NaN => false | _ => true end = true.
Proof.
  intros Hs ->. case_bool_decide as He; [reflexivity|].
  destruct Hs as [Hs | Hs]; [contradiction|].
  destruct (JS.parseFloat search); [contradiction | reflexivity | reflexivity].
Qed.

(** C5 (as amended): for every search string without pattern syntax
    characters that is empty or that [parseFloat] reads as a number, the
    route builds a query the client library accepts, and the query matches a
    record exactly when its title contains the search string, letter case
    aside, or its description does, or, for a non-empty search string, its
    price equals [parseFloat(search)], or, for the empty one, it has a
    price. *)
Theorem C5_search_is_a_disjunction (search : string) :
  plain search = true →
  search = ""%string ∨ JS.parseFloat search ≠ JS.NaN →
  ∃ query, transactions_query search = Some query
           ∧ castable_filter query = true
           ∧ ∀ t, Store.matches query t = true ↔ search_matches search t.
Proof.
  intros Hp Hs. unfold transactions_query. rewrite (new_RegExp_plain search Hp).
  eexists. split; [reflexivity|]. split.
  - cbn [castable_filter]. exact (served_search_castable _ search Hs eq_refl).
  - intros t. cbn [Store.matches]. unfold search_matches.
    rewrite !orb_true_iff, !regex_field_literal, price_matches_branch. tauto.
Qed.

(** C5 (counterexample): the search string is compiled as a regular
    expression, so "1.5" finds the record titled "125", although neither
    text field contains "1.5" and its price is 9; and a search for a word
    such as "item", which [parseFloat] reads as NaN, is refused by a client
    library that casts the filter: the route answers 500 although titles
    contain the word. *)
Lemma C5_dot_is_a_wildcard_and_words_are_refused :
  (∃ query, transactions_query "1.5" = Some query
            ∧ castable_filter query = true
            ∧ Store.matches query part_125 = true
            ∧ ¬ search_matches "1.5" part_125)
  ∧ (search_matches "item" (sale 100 2 5 10 "toys")
     ∧ status <$> serve_transactions
                    {| page := None; perPage := None; search := Some "item"%string |} casting_db
       = Some 500).
Proof.
  split.
  - eexists. split; [reflexivity|]. split; [reflexivity|]. split; [reflexivity|].
    intros [(s & Hs & Hc) | [(s & Hs & Hc) | H]].
    + injection Hs as <-. apply test_literal in Hc. vm_compute in Hc. discriminate Hc.
    + injection Hs as <-. apply test_literal in Hc. vm_compute in Hc. discriminate Hc.
    + unfold price_branch in H. cbn [bool_decide decide_rel] in H.
      rewrite bool_decide_eq_false_2 in H by discriminate.
      destruct H as (q & x & Hq & Hx & Heq). injection Hq as <-.
      vm_compute in Hx. injection Hx as <-. vm_compute in Heq. discriminate Heq.
  - split; [|vm_compute; reflexivity].
    left. exists "item"%string. split; [reflexivity|].
    exists ""%string, ""%string. reflexivity.
Qed.

(** ** Paging *)

Lemma empty_search_matches (t : Transaction) :
  Store.matches (Store.AnyOf [] [] Store.PriceExists) t = has_searchable_field t.
Proof.
  unfold has_searchable_field. cbn [Store.matches].
  destruct t as [[[|? ?]|] [[|? ?]|] [pr|] ? ?]; reflexivity.
Qed.

Lemma list_page_available (query : Store.Filter) (page perPage : Z) (db : Store.Db) :
  available db → 1 ≤ page → 1 ≤ perPage →
  run (Store.try_catch
         (transactions ← Store.find query (Some ((page - 1) * perPage)) (Some perPage);
          total ← Store.countDocuments query;
          mret (json (PageBody {| transactions := transactions; total := total |})))
         (failure "Failed to retrieve transactions")) db
  = (Some (json (PageBody
                   {| transactions :=
                        firstn (Z.to_nat perPage)
                          (skipn (Z.to_nat ((page - 1) * perPage))
                             (Store.select query (Store.docs db)));
                      total := length (Store.select query (Store.docs db)) |})),
     [ Store.Find query (Some ((page - 1) * perPage)) (Some perPage);
       Store.CountDocuments query ]).
Proof.
  intros Ha Hp Hpp. unfold_async. rewrite !Ha.
  assert (Hs : 0 ≤ (page - 1) * perPage) by (apply Z.mul_nonneg_nonneg; lia).
  replace ((page - 1) * perPage <? 0) with false by (symmetry; apply Z.ltb_ge; exact Hs).
  unfold Store.apply_limit, Store.apply_skip.
  replace (perPage =? 0) with false by (symmetry; apply Z.eqb_neq; lia).
  rewrite Z.abs_eq by lia. reflexivity.
Qed.

Lemma everything_search_matches (accepts : string → bool) (t : Transaction) :
  (∀ s, accepts s = true) →
  Store.matches (Store.AnyOfTests accepts accepts Store.PriceExists) t = has_searchable_field t.
Proof.
  intros Hall. unfold has_searchable_field. cbn [Store.matches].
  destruct t as [[ti|] [de|] [pr|] ? ?]; cbn; rewrite ?Hall; reflexivity.
Qed.

(** On the sources it interprets, the literal engine gives the query of
    [transactions_query], pattern for pattern. *)
Lemma literal_engine_query (search : string) (query : Store.Filter) :
  transactions_query search = Some query →
  ∃ query', transactions_query_with literal_engine search = Some query'
            ∧ castable_filter query' = castable_filter query
            ∧ ∀ t, Store.matches query' t = Store.matches query t.
Proof.
  unfold transactions_query, transactions_query_with, literal_engine.
  destruct (JS.new_RegExp search) as [r|]; [|discriminate]. cbn [fmap option_fmap option_map].
  intros [= <-]. eexists. split; [reflexivity|]. split; [reflexivity|].
  intros t. cbn [Store.matches]. destruct (title t), (description t); reflexivity.
Qed.

(** C6 (as amended): on a store that serves the request, for a page of at
    least 1 and a page size of at least 1 (1 and 10 when absent) and a search
    string that compiles as a pattern and is empty or read by [parseFloat]
    as a number, the transactions route sends a query the client library
    accepts and answers with the matching records left after skipping
    [(page - 1) * perPage] of them, cut to at most [perPage], and with
    [total] the number of all matching records, whatever the pattern engine.
    With page 1, page size 10 and the empty search string, which every text
    passes, it returns at most 10 records and [total] is the number of
    records that have a title, a description or a price: the full record
    count when every record has one of these. *)
Theorem C6_page_slice_and_total (engine : Engine) (q : ListQuery) (db : Store.Db) :
  available db →
  let page' := default 1 (page q) in
  let perPage' := default 10 (perPage q) in
  let search' := default ""%string (search q) in
  (1 ≤ page' → 1 ≤ perPage' →
   search' = ""%string ∨ JS.parseFloat search' ≠ JS.NaN →
   ∀ query, transactions_query_with engine search' = Some query →
     let matching := Store.select query (Store.docs db) in
     let slice := firstn (Z.to_nat perPage')
                    (skipn (Z.to_nat ((page' - 1) * perPage')) matching) in
     castable_filter query = true
     ∧ ∃ h, route_transactions_with engine q = Some h
            ∧ fst (run h db)
              = Some (json (PageBody {| transactions := slice; total := length matching |}))
            ∧ (length slice ≤ Z.to_nat perPage')%nat)
  ∧ (page' = 1 → perPage' = 10 → search' = ""%string →
     ∀ accepts, engine ""%string = Some accepts → (∀ s, accepts s = true) →
     let found := List.filter has_searchable_field (Store.docs db) in
     ∃ h, route_transactions_with engine q = Some h
          ∧ fst (run h db)
            = Some (json (PageBody {| transactions := firstn 10 found; total := length found |}))
          ∧ (length (firstn 10 found) ≤ 10)%nat
          ∧ (forallb has_searchable_field (Store.docs db) = true →
             length found = length (Store.docs db))).
Proof.
  intros Ha page' perPage' search'. split.
  - intros Hp Hpp Hs query Hq matching slice. split.
    + revert Hq. unfold transactions_query_with.
      destruct (engine search') as [accepts|]; [|discriminate].
      intros [= <-]. cbn [castable_filter].
      exact (served_search_castable _ search' Hs eq_refl).
    + unfold route_transactions_with. fold page' perPage' search'. rewrite Hq.
      cbn [mbind option_bind].
      eexists. split; [reflexivity|].
      rewrite (list_page_available query page' perPage' db Ha Hp Hpp). cbn [fst].
      split; [reflexivity|]. subst slice. rewrite length_firstn. lia.
  - intros Hp Hpp Hs accepts He Hall found.
    unfold route_transactions_with, transactions_query_with.
    fold page' perPage' search'. rewrite Hp, Hpp, Hs, He.
    cbn [mbind option_bind].
    eexists. split; [reflexivity|].
    rewrite (list_page_available _ 1 10 db Ha) by lia. cbn [fst].
    change (if bool_decide (""%string = ""%string) then Store.PriceExists
            else Store.PriceIs (JS.parseFloat "")) with Store.PriceExists.
    assert (Hsel : Store.select (Store.AnyOfTests accepts accepts Store.PriceExists)
                     (Store.docs db) = found).
    { unfold Store.select, found. apply filter_ext. intros t.
      apply everything_search_matches, Hall. }
    rewrite Hsel. change (Z.to_nat ((1 - 1) * 10)) with 0%nat.
    change (Z.to_nat 10) with 10%nat. cbn [skipn].
    split; [reflexivity|]. split; [rewrite length_firstn; lia|].
    intros Hall'. unfold found. clear -Hall'.
    induction (Store.docs db) as [|t ds IH]; [reflexivity|].
    cbn [forallb] in Hall'. apply andb_true_iff in Hall' as [Ht Hds].
    cbn [List.filter]. rewrite Ht. cbn [length]. rewrite (IH Hds). reflexivity.
Qed.

(** ** Counterexamples and examples *)

Lemma always_up_available (ds : list Transaction) :
  available {| Store.docs := ds; Store.fault := always_up |}.
Proof. intros n op. reflexivity. Qed.

(** C6 (counterexample): with page 1, page size 10 and the empty search
    string, a store whose only record has no title, description or price
    gives [total] 0, not the record count 1; a page size of 0 returns every
    matching record, not at most 0; page 0 asks the store to skip a negative
    number of records, which fails; a search for the word "item", which
    [parseFloat] reads as NaN, is refused by a client library that casts the
    filter; and for "1(", which no engine compiles, the route builds no
    query and gives no answer. *)
Lemma C6_total_page_size_page_zero_and_words :
  (serve_transactions_with literal_engine
     {| page := Some 1; perPage := Some 10; search := Some ""%string |} sparse_db
   = Some (json (PageBody {| transactions := []; total := 0 |}))
   ∧ length (Store.docs sparse_db) = 1%nat)
  ∧ serve_transactions_with literal_engine
      {| page := Some 1; perPage := Some 0; search := None |} march_db
    = Some (json (PageBody {| transactions := march_sales; total := 6 |}))
  ∧ status <$> serve_transactions_with literal_engine
                 {| page := Some 0; perPage := Some 10; search := None |} march_db
    = Some 500
  ∧ status <$> serve_transactions_with literal_engine
                 {| page := None; perPage := None; search := Some "item"%string |} casting_db
    = Some 500
  ∧ (∀ engine : Engine, engine "1("%string = None →
       route_transactions_with engine
         {| page := None; perPage := None; search := Some "1("%string |} = None).
Proof.
  split; [split; vm_compute; reflexivity|].
  split; [vm_compute; reflexivity|]. split; [vm_compute; reflexivity|].
  split; [vm_compute; reflexivity|].
  intros engine He. unfold route_transactions_with, transactions_query_with.
  cbn. rewrite He. reflexivity.
Qed.

Example bar_chart_march :
  fst (run (route_bar_chart 2026 "march")
         {| Store.docs := [ sale 50 2 3 8 "a"; sale 150 2 9 8 "a"; sale 250 2 17 8 "b";
                            sale 950 2 25 8 "b" ];
            Store.fault := always_up |})
  = Some (json (BarChartBody
       [ {| range := "0-100"; count := 1 |}; {| range := "101-200"; count := 1 |};
         {| range := "201-300"; count := 1 |}; {| range := "301-400"; count := 0 |};
         {| range := "401-500"; count := 0 |}; {| range := "501-600"; count := 0 |};
         {| range := "601-700"; count := 0 |}; {| range := "701-800"; count := 0 |};
         {| range := "801-900"; count := 0 |}; {| range := "901-above"; count := 1 |} ])).
Proof. vm_compute. reflexivity. Qed.

Example statistics_march :
  fst (run (route_statistics 2026 "march")
         {| Store.docs := [ sale 100 2 5 8 "a"; sale 200 2 20 8 "a" ];
            Store.fault := always_up |})
  = Some (json (StatisticsBody
       {| totalSales := 300; soldItems := 2; notSoldItems := 0 |})).
Proof. vm_compute. reflexivity. Qed.

(** A sale at noon on 31 March is missing from the March figures, and the
    February sale counts as "not sold". *)
Example statistics_march_last_day :
  fst (run (route_statistics 2026 "March") march_db)
  = Some (json (StatisticsBody
       {| totalSales := 1146; soldItems := 4; notSoldItems := 1 |})).
Proof. vm_compute. reflexivity. Qed.

Example search_150 :
  ∃ query, transactions_query "150" = Some query
    ∧ Store.matches query (sale 150 2 5 8 "a") = true
    ∧ Store.matches query (only_title "Model 150 lamp") = true
    ∧ Store.matches query (sale 151 2 5 8 "a") = false.
Proof. eexists. repeat split; vm_compute; reflexivity. Qed.

(** ** Instances *)

(** "January" in 2026. *)
Lemma C1_january_instance :
  JS.toLowerCase "January" = "january"%string
  ∧ run (route_statistics 2026 "January") march_db = (Some invalid_month, [])
  ∧ run (route_combined 2026 "January") march_db = (Some invalid_month, []).
Proof.
  split; [reflexivity|].
  pose proof (C1_january_reported_invalid 2026 "January" march_db eq_refl) as (_ & H1 & _ & _ & H4).
  split; [exact H1 | exact H4].
Defined.

(** March 2026: the range ends on 31 March at 00:00:00. *)
Lemma C2_march_instance :
  clock_year 2026
  ∧ monthMap !! JS.toLowerCase "March" = Some 2
  ∧ endDate (getStartEndDate 2026 (JS.toLowerCase "March"))
    = JS.TimeValue (JS.MakeDate (JS.MakeDay 2026 2 (JS.DaysInMonth 2026 2)) 0)
  ∧ in_month 2026 2 (JS.MakeDate (JS.MakeDay 2026 2 (JS.DaysInMonth 2026 2)) 1) = true.
Proof.
  assert (Hy : clock_year 2026) by (unfold clock_year; lia).
  assert (Hm : monthMap !! JS.toLowerCase "March" = Some 2) by (vm_compute; reflexivity).
  split; [exact Hy|]. split; [exact Hm|].
  pose proof (C2_range_stops_at_start_of_last_day 2026 "March" 2 Hy Hm)
    as (_ & He & _ & _ & _ & Hin).
  split; [exact He | exact Hin].
Defined.

(** The bar chart of March 2026. *)
Lemma C3_march_instance :
  available march_db
  ∧ ∃ bs, fst (run (route_bar_chart 2026 "March") march_db) = Some (json (BarChartBody bs))
          ∧ sum_list_with count bs = length (in_range 2026 "march" march_db).
Proof.
  split; [apply always_up_available|].
  pose proof (C3_bar_chart_buckets 2026 "March" march_db (always_up_available _))
    as (_ & H & _).
  destruct H as (bs & Hrun & _ & _ & Hsum).
  - apply (bool_decide_unpack _). vm_compute. exact I.
  - discriminate.
  - exists bs. split; [exact Hrun | exact Hsum].
Defined.

(** The statistics of March 2026: whole prices, so the total is exact. *)
Lemma C4_march_instance :
  available march_db
  ∧ exact_in_doubles (in_range 2026 "march" march_db)
  ∧ ∃ st, fst (run (route_statistics 2026 "March") march_db) = Some (json (StatisticsBody st))
          ∧ soldItems st = length (in_range 2026 "march" march_db)
          ∧ (totalSales st == price_sum (in_range 2026 "march" march_db))%Q.
Proof.
  split; [apply always_up_available|].
  assert (Hexact : exact_in_doubles (in_range 2026 "march" march_db)).
  { split.
    - intros t q Hin Hq.
      change (in_range 2026 "march" march_db)
        with [sale (-5) 2 1 0 "toys"; sale 100 2 5 10 "toys"; sale 101 2 20 9 "books";
              sale 950 2 31 0 "books"] in Hin.
      cbn [In] in Hin.
      destruct Hin as [<- | [<- | [<- | [<- | []]]]]; injection Hq as <-;
        eexists; reflexivity.
    - vm_compute. discriminate. }
  split; [exact Hexact|].
  pose proof (C4_statistics_figures 2026 "March" march_db (always_up_available _))
    as (_ & H & _).
  destruct H as (st & Hrun & Hsold & Hsum & _).
  - apply (bool_decide_unpack _). vm_compute. exact I.
  - discriminate.
  - exists st. split; [exact Hrun|]. split; [exact Hsold | exact (Hsum Hexact)].
Defined.

(** The search string "150". *)
Lemma C5_search_150_instance :
  plain "150" = true
  ∧ JS.parseFloat "150" ≠ JS.NaN
  ∧ ∃ query, transactions_query "150" = Some query
             ∧ castable_filter query = true
             ∧ ∀ t, Store.matches query t = true ↔ search_matches "150" t.
Proof.
  assert (Hn : JS.parseFloat "150" ≠ JS.NaN) by (vm_compute; discriminate).
  split; [reflexivity|]. split; [exact Hn|].
  exact (C5_search_is_a_disjunction "150" eq_refl (or_intror Hn)).
Defined.

(** The second page of four records, under the literal engine. *)
Lemma C6_second_page_instance :
  available march_db
  ∧ ∃ h, route_transactions_with literal_engine
           {| page := Some 2; perPage := Some 4; search := None |} = Some h
         ∧ fst (run h march_db)
           = Some (json (PageBody {| transactions := [ sale 70 2 31 12 "toys"; sale 40 1 28 23 "books" ];
                                     total := 6 |})).
Proof.
  split; [apply always_up_available|].
  pose proof (C6_page_slice_and_total literal_engine
                {| page := Some 2; perPage := Some 4; search := None |} march_db
                (always_up_available _)) as [H _].
  destruct (H ltac:(cbn; lia) ltac:(cbn; lia) (or_introl eq_refl) _ eq_refl)
    as (_ & h & Hh & Hrun & _).
  exists h. split; [exact Hh | exact Hrun].
Defined.

(** The combined report of March 2026, on a store that serves every
    operation and on one that rejects the fourth. *)
Lemma C7_march_instance :
  (∃ st bs gs,
     fst (run (route_combined 2026 "March") march_db)
     = Some (json (CombinedBody {| statistics := st; barChart := bs; pieChart := gs |}))
     ∧ fst (run (route_statistics 2026 "March") march_db) = Some (json (StatisticsBody st)))
  ∧ fst (run (route_combined 2026 "March") flaky_db)
    = Some (failure "Failed to retrieve combined data" "store unreachable").
Proof.
  split.
  - pose proof (C7_combined_matches_separate_reports 2026 "March" march_db) as (_ & H & _).
    destruct H as (st & bs & gs & Hs & _ & _ & Hc).
    + apply always_up_available.
    + apply (bool_decide_unpack _). vm_compute. exact I.
    + discriminate.
    + exists st, bs, gs. split; [exact Hc | exact Hs].
  - pose proof (C7_combined_matches_separate_reports 2026 "March" flaky_db) as (_ & _ & H).
    destruct (H eq_refl) as (_ & H2 & _).
    erewrite H2; [reflexivity | vm_compute; reflexivity | vm_compute; reflexivity].
Defined.

(** The first bucket of March 2026 holds the prices -5 and 100. *)
Lemma C9_march_instance :
  ∃ bs, fst (run (route_bar_chart 2026 "March") march_db) = Some (json (BarChartBody bs))
        ∧ bs !! 0%nat = Some {| range := "0-100"; count := 2 |}.
Proof.
  eexists. split; [vm_compute; reflexivity|].
  pose proof (C9_first_bucket_unbounded_below 2026 "March" march_db _
                ltac:(vm_compute; reflexivity)) as (_ & _ & H).
  rewrite H. vm_compute. reflexivity.
Defined.

(** The three reports of March 2026. *)
Lemma C10_march_instance :
  ∃ st bs gs,
    fst (run (route_statistics 2026 "March") march_db) = Some (json (StatisticsBody st))
    ∧ fst (run (route_bar_chart 2026 "March") march_db) = Some (json (BarChartBody bs))
    ∧ fst (run (route_pie_chart 2026 "March") march_db) = Some (json (PieChartBody gs))
    ∧ sum_list_with Store.count gs = sum_list_with count bs
    ∧ sum_list_with count bs = soldItems st.
Proof.
  pose proof (C10_reports_agree_on_population 2026 "March" march_db) as (Hagree & _ & Hex).
  destruct Hex as (st & bs & gs & Hs & Hb & Hp).
  - apply always_up_available.
  - apply (bool_decide_unpack _). vm_compute. exact I.
  - discriminate.
  - exists st, bs, gs. destruct (Hagree st bs gs Hs Hb Hp) as (H1 & H2 & _).
    repeat split; assumption.
Defined.

(** * Further properties *)

(** ** The guard and the two copies of each report *)

(** X1: each month-scoped route answers 400 "Invalid month" exactly when the
    lowercased parameter is none of "february" to "december", "constructor"
    and "__proto__", and a parameter turned away this way causes no store
    operation. *)
Theorem X1_invalid_month_exactly (year : Z) (param : string) (db : Store.Db) :
  Forall (fun route =>
            (fst (run (route year param) db) = Some invalid_month
             ↔ JS.toLowerCase param ∉ passing_names)
            ∧ (JS.toLowerCase param ∉ passing_names
               → run (route year param) db = (Some invalid_month, [])))
         [route_statistics; route_bar_chart; route_pie_chart; route_combined].
Proof.
  apply Forall_forall. intros route Hr.
  destruct (invalid_month_iff year param db route Hr) as [Hiff Hlog].
  split; [exact Hiff|]. intros Hnot.
  apply rejected_month_no_store_access; [|exact Hr].
  destruct (rejected_month (JS.toLowerCase param)) eqn:Hg; [reflexivity|].
  exfalso. apply Hnot, rejected_month_iff, Hg.
Qed.

(** X2: for a parameter that passes the guard, the stand-alone statistics,
    bar-chart and pie-chart routes answer exactly as the helpers
    [getStatistics], [getBarChart] and [getPieChart] of the combined route
    compute, on every store: the helper's result with status 200, or its
    error with status 500, after the same store operations. *)
Theorem X2_routes_agree_with_helpers (year : Z) (param : string) (db : Store.Db) :
  rejected_month (JS.toLowerCase param) = false →
  let month := JS.toLowerCase param in
  run (route_statistics year param) db
  = match getStatistics year month db [] with
    | (Store.Resolved st, log) => (Some (json (StatisticsBody st)), log)
    | (Store.Rejected e, log) => (Some (failure "Failed to retrieve statistics" e), log)
    end
  ∧ run (route_bar_chart year param) db
    = match getBarChart year month db [] with
      | (Store.Resolved bs, log) => (Some (json (BarChartBody bs)), log)
      | (Store.Rejected e, log) => (Some (failure "Failed to retrieve bar chart data" e), log)
      end
  ∧ run (route_pie_chart year param) db
    = match getPieChart year month db [] with
      | (Store.Resolved gs, log) => (Some (json (PieChartBody gs)), log)
      | (Store.Rejected e, log) => (Some (failure "Failed to retrieve pie chart data" e), log)
      end.
Proof.
  intros Hg month. subst month. unfold_async. rewrite Hg.
  generalize (getStartEndDate year (JS.toLowerCase param)). intros r.
  repeat split;
    destruct (Store.select _ (Store.docs db));
    repeat (match goal with
            | |- context [Store.fault ?d ?n ?o] => destruct (Store.fault d n o)
            end; cbn [fst snd]);
    reflexivity.
Qed.

(** Closes "the first operations were served" from the cases at hand. *)
Ltac first_served :=
  let j := fresh "j" in
  let op := fresh "op" in
  let Hj := fresh "Hj" in
  let Hop := fresh "Hop" in
  intros j op Hj Hop;
  repeat (destruct j as [|j]; [cbn in Hop; injection Hop as <-; assumption|]);
  cbn in Hj; lia.

(** The request stopped at its [k]-th operation [o], rejected with [e]. *)
Ltac stopped_at k o e :=
  exists k; cbn [fst snd firstn length app];
  (split; [lia|]); (split; [reflexivity|]); (split; [first_served|]);
  right; exists o, e; (split; [reflexivity|]); (split; [assumption | reflexivity]).

(** X3: the combined route issues its five store operations in a fixed
    order and stops at the first one the store rejects: the operations
    issued are a non-empty initial part of the five, all but the last were
    served, and the answer is 200 with the three reports when all five were
    served and 500 with the error of the rejected operation otherwise, never
    a partial report. *)
Theorem X3_combined_stops_at_first_rejection (year : Z) (param : string) (db : Store.Db) :
  rejected_month (JS.toLowerCase param) = false →
  let month := JS.toLowerCase param in
  let ops := combined_ops year month in
  ∃ k, (1 ≤ k ≤ 5)%nat
       ∧ snd (run (route_combined year param) db) = firstn k ops
       ∧ serves_first db ops (k - 1)
       ∧ ((k = 5%nat
           ∧ serves_first db ops 5
           ∧ fst (run (route_combined year param) db)
             = Some (json (CombinedBody
                             {| statistics := statistics_of year month db;
                                barChart := tally (in_range year month db) priceRanges;
                                pieChart := Store.group_by_category (in_range year month db) |})))
          ∨ (∃ op e, ops !! (k - 1)%nat = Some op
                     ∧ Store.fault db (k - 1) op = Some e
                     ∧ fst (run (route_combined year param) db)
                       = Some (failure "Failed to retrieve combined data" e))).
Proof.
  intros Hg month ops. subst month ops.
  unfold combined_ops, statistics_ops, statistics_of, in_range, before_range, month_range,
    serves_first.
  unfold_async. rewrite Hg.
  generalize (getStartEndDate year (JS.toLowerCase param)). intros r.
  set (o0 := Store.CountDocuments _). set (o1 := Store.SumPrice _).
  set (o2 := Store.CountDocuments (Store.DateBefore _)).
  set (o3 := Store.Find _ _ _). set (o4 := Store.CountByCategory _).
  cbn [app length].
  destruct (Store.select (Store.DateBetween _ _) (Store.docs db)) as [|t found];
    (destruct (Store.fault db 0 o0) as [e|] eqn:F0; cbn [length app]; [stopped_at 1%nat o0 e|]);
    (destruct (Store.fault db 1 o1) as [e|] eqn:F1; cbn [length app]; [stopped_at 2%nat o1 e|]);
    (destruct (Store.fault db 2 o2) as [e|] eqn:F2; cbn [length app]; [stopped_at 3%nat o2 e|]);
    (destruct (Store.fault db 3 o3) as [e|] eqn:F3; cbn [length app]; [stopped_at 4%nat o3 e|]);
    (destruct (Store.fault db 4 o4) as [e|] eqn:F4; cbn [length app]; [stopped_at 5%nat o4 e|]);
    exists 5%nat; cbn [fst snd firstn length app];
    (split; [lia|]); (split; [reflexivity|]); (split; [first_served|]);
    left; (split; [reflexivity|]); (split; [first_served | reflexivity]).
Qed.

(** ** The category breakdown *)

Lemma in_category_snoc (c : option string) (ds : list Transaction) (t : Transaction) :
  in_category c (ds ++ [t])
  = (in_category c ds + if bool_decide (category t = c) then 1 else 0)%nat.
Proof.
  unfold in_category. rewrite List.filter_app, length_app. cbn [List.filter].
  destruct (bool_decide (category t = c)); reflexivity.
Qed.

Lemma reported_count_bump (c key : option string) (gs : list Store.Group) :
  reported_count c (Store.bump key gs)
  = (reported_count c gs + if bool_decide (key = c) then 1 else 0)%nat.
Proof.
  induction gs as [|g gs IH]; cbn [Store.bump reported_count].
  - cbn. destruct (bool_decide (key = c)); reflexivity.
  - destruct (bool_decide (Store._id g = key)) eqn:Hk; cbn [reported_count Store._id Store.count].
    + apply bool_decide_eq_true in Hk. subst key.
      destruct (bool_decide (Store._id g = c)); lia.
    + apply bool_decide_eq_false in Hk.
      destruct (bool_decide (Store._id g = c)) eqn:Hc; [|exact IH].
      apply bool_decide_eq_true in Hc. subst c.
      rewrite bool_decide_eq_false_2 by congruence. lia.
Qed.

Lemma bump_ids (key : option string) (gs : list Store.Group) :
  Store._id <$> Store.bump key gs
  = if bool_decide (key ∈ Store._id <$> gs) then Store._id <$> gs
    else (Store._id <$> gs) ++ [key].
Proof.
  induction gs as [|g gs IH]; cbn [Store.bump fmap list_fmap].
  - reflexivity.
  - destruct (bool_decide (Store._id g = key)) eqn:Hk.
    + apply bool_decide_eq_true in Hk.
      rewrite bool_decide_eq_true_2 by (subst key; apply list_elem_of_here). reflexivity.
    + apply bool_decide_eq_false in Hk. cbn [fmap list_fmap]. fold (fmap Store._id gs).
      fold (fmap Store._id (Store.bump key gs)). rewrite IH.
      destruct (bool_decide (key ∈ Store._id <$> gs)) eqn:Hin.
      * apply bool_decide_eq_true in Hin.
        rewrite bool_decide_eq_true_2 by (apply list_elem_of_further, Hin). reflexivity.
      * apply bool_decide_eq_false in Hin.
        rewrite bool_decide_eq_false_2; [reflexivity|].
        intros H. apply elem_of_cons in H as [H | H]; [congruence | contradiction].
Qed.

Lemma bump_positive (key : option string) (gs : list Store.Group) :
  Forall (fun g => (1 ≤ Store.count g)%nat) gs →
  Forall (fun g => (1 ≤ Store.count g)%nat) (Store.bump key gs).
Proof.
  induction 1 as [|g gs Hg Hgs IH]; cbn [Store.bump].
  - repeat constructor.
  - destruct (bool_decide (Store._id g = key)); constructor; cbn; auto; lia.
Qed.

(** What the grouping keeps while it runs over the records. *)
Lemma group_fold_invariant (rest done : list Transaction) (gs : list Store.Group) :
  NoDup (Store._id <$> gs) →
  Forall (fun g => (1 ≤ Store.count g)%nat) gs →
  (∀ c, reported_count c gs = in_category c done) →
  let gs' := fold_left (fun gs t => Store.bump (category t) gs) rest gs in
  NoDup (Store._id <$> gs')
  ∧ Forall (fun g => (1 ≤ Store.count g)%nat) gs'
  ∧ (∀ c, reported_count c gs' = in_category c (done ++ rest)).
Proof.
  revert done gs. induction rest as [|t rest IH]; intros done gs Hnd Hpos Hcnt; cbn [fold_left].
  - rewrite app_nil_r. auto.
  - replace (done ++ t :: rest) with ((done ++ [t]) ++ rest) by (rewrite <- app_assoc; reflexivity).
    apply IH.
    + rewrite bump_ids. case_bool_decide as Hin; [exact Hnd|].
      apply NoDup_app. split; [exact Hnd|]. split; [|apply NoDup_singleton].
      intros x Hx Hx'. apply list_elem_of_singleton in Hx'. subst x. contradiction.
    + apply bump_positive, Hpos.
    + intros c. rewrite reported_count_bump, in_category_snoc, Hcnt. reflexivity.
Qed.

Lemma reported_count_elem (gs : list Store.Group) (g : Store.Group) :
  NoDup (Store._id <$> gs) → g ∈ gs → reported_count (Store._id g) gs = Store.count g.
Proof.
  induction gs as [|h gs IH]; intros Hnd Hin; [by apply elem_of_nil in Hin|].
  cbn [fmap list_fmap] in Hnd. apply NoDup_cons in Hnd as [Hh Hnd].
  cbn [reported_count]. apply elem_of_cons in Hin as [-> | Hin].
  - rewrite bool_decide_eq_true_2 by reflexivity. reflexivity.
  - rewrite bool_decide_eq_false_2; [apply IH; assumption|].
    intros Heq. apply Hh. rewrite Heq. apply list_elem_of_fmap. exists g. auto.
Qed.

(** X4: whenever the pie-chart route answers with groups, no category
    appears twice, the count reported for each category (absent ones
    included, as 0) is the number of records of the month's date range in
    that category, records without a category forming a group of their own,
    and every group listed has a count of at least 1. *)
Theorem X4_pie_chart_counts_each_category
    (year : Z) (param : string) (db : Store.Db) (gs : list Store.Group) :
  fst (run (route_pie_chart year param) db) = Some (json (PieChartBody gs)) →
  let found := in_range year (JS.toLowerCase param) db in
  NoDup (Store._id <$> gs)
  ∧ (∀ c, reported_count c gs = in_category c found)
  ∧ (∀ g, g ∈ gs → Store.count g = in_category (Store._id g) found ∧ (1 ≤ Store.count g)%nat).
Proof.
  intros Hrun found. apply route_pie_chart_json in Hrun. fold found in Hrun. subst gs.
  unfold Store.group_by_category.
  destruct (group_fold_invariant found [] [] (NoDup_nil_2) (Forall_nil_2 _) (fun c => eq_refl))
    as (Hnd & Hpos & Hcnt).
  cbn [app] in Hcnt. split; [exact Hnd|]. split; [exact Hcnt|].
  intros g Hg. split.
  - rewrite <- Hcnt. symmetry. apply reported_count_elem; assumption.
  - rewrite Forall_forall in Hpos. apply Hpos, Hg.
Qed.

(** ** The ends of the histogram *)

(** X5: whenever the bar-chart route answers with buckets, its last bucket
    is '901-above' and counts the records of the date range whose price is
    above 900 together with those that have no price at all. *)
Theorem X5_last_bucket_takes_missing_prices
    (year : Z) (param : string) (db : Store.Db) (bs : list PriceRange) :
  fst (run (route_bar_chart year param) db) = Some (json (BarChartBody bs)) →
  bs !! 9%nat
  = Some {| range := "901-above";
            count := length (List.filter
                               (fun t => match price t with
                                         | Some q => negb (Qle_bool q 900)
                                         | None => true
                                         end)
                               (in_range year (JS.toLowerCase param) db)) |}.
Proof.
  intros Hrun. apply route_bar_chart_json in Hrun. subst bs.
  rewrite (tally_lookup _ priceRanges 9 {| range := "901-above"; count := 0 |} eq_refl).
  cbn [range count Nat.add]. unfold in_bucket. do 3 f_equal.
  apply filter_ext. intros t. destruct (price t) as [q|]; [|reflexivity].
  destruct (Qle_bool q 900) eqn:Hle; cbn [negb].
  - apply Nat.eqb_neq. intros Hb. apply bucket_spec in Hb as (_ & [Hb | Hb] & _); [discriminate|].
    apply Qle_bool_iff in Hle. cbn in Hb. apply (Qlt_not_le _ _ Hb). exact Hle.
  - apply Nat.eqb_eq. apply bucket_spec. split; [lia|]. split; [|left; reflexivity].
    right. cbn. apply Qnot_le_lt. intros H. apply Qle_bool_iff in H.
    change (Qle_bool q 900 = true) in H. congruence.
Qed.

(** X6: the bucket index never decreases with the price: a record with a
    higher price is never put in a lower bucket. *)
Theorem X6_bucket_monotone (p q : Q) :
  (p <= q)%Q → (bucket (Some p) ≤ bucket (Some q))%nat.
Proof.
  intros Hpq.
  destruct (bucket_spec q (bucket (Some q))) as [Hq _].
  destruct (Hq eq_refl) as (Hq9 & Hqlo & Hqhi). clear Hq.
  destruct (le_lt_dec (bucket (Some p)) (bucket (Some q))) as [Hle | Hgt]; [exact Hle|].
  exfalso.
  destruct (bucket_spec p (bucket (Some p))) as [Hp _].
  destruct (Hp eq_refl) as (Hp9 & Hplo & Hphi). clear Hp.
  destruct Hplo as [Hp0 | Hplo]; [lia|].
  destruct Hqhi as [Hq9' | Hqhi]; [lia|].
  assert (H : (inject_Z (100 * Z.of_nat (bucket (Some p))) < inject_Z (100 * (Z.of_nat (bucket (Some q)) + 1)))%Q).
  { eapply Qlt_le_trans; [exact Hplo|]. eapply Qle_trans; [exact Hpq | exact Hqhi]. }
  rewrite <- Zlt_Qlt in H. lia.
Qed.

(** ** Months side by side *)

Lemma MonthStart_monotone (leap : bool) (a b : Z) :
  0 ≤ a → a ≤ b → b ≤ 11 → JS.MonthStart leap a ≤ JS.MonthStart leap b.
Proof.
  intros Ha Hab Hb.
  assert (Ha' : 0 ≤ a ≤ 11) by lia. assert (Hb' : 0 ≤ b ≤ 11) by lia.
  month_cases a; month_cases b; try lia; destruct leap; cbn; lia.
Qed.

(** A month ends before any later month of the year starts. *)
Lemma month_end_before_later_start (year i j : Z) :
  0 ≤ i → i < j → j ≤ 11 →
  JS.MakeDate (JS.MakeDay year i (JS.DaysInMonth year i)) 0
  < JS.MakeDate (JS.MakeDay year j 1) 0.
Proof.
  intros Hi Hij Hj.
  rewrite (MakeDay_date year i (JS.DaysInMonth year i)). unfold JS.DaysInMonth.
  rewrite !MakeDay_month_start by lia.
  pose proof (MonthStart_monotone (JS.InLeapYear year) (i + 1) j) as Hm.
  unfold JS.MakeDate, JS.msPerDay. lia.
Qed.

Lemma monthMap_injective (m1 m2 : string) (i : Z) :
  monthMap !! m1 = Some i → monthMap !! m2 = Some i → m1 = m2.
Proof.
  intros H1 H2. apply monthMap_lookup in H1. apply monthMap_lookup in H2.
  unfold monthMap_entries in *.
  repeat (apply elem_of_cons in H1 as [H1 | H1];
          [simplify_eq;
           repeat (apply elem_of_cons in H2 as [H2 | H2]; [by simplify_eq|]);
           by apply elem_of_nil in H2 |]).
  by apply elem_of_nil in H1.
Qed.

(** X7: the date ranges of two different months of the same year never
    overlap: no record is selected for both, so no sale is counted in the
    reports of two months. *)
Theorem X7_month_ranges_disjoint (year : Z) (m1 m2 : string) (i j : Z) (t : Transaction) :
  clock_year year →
  monthMap !! m1 = Some i → monthMap !! m2 = Some j → m1 ≠ m2 →
  ¬ (Store.matches (month_range year m1) t = true
     ∧ Store.matches (month_range year m2) t = true).
Proof.
  intros Hy H1 H2 Hne [M1 M2].
  apply (month_range_matches year m1 i t Hy H1) in M1 as (d & Hd & Hlo1 & Hhi1).
  apply (month_range_matches year m2 j t Hy H2) in M2 as (d' & Hd' & Hlo2 & Hhi2).
  rewrite Hd in Hd'. injection Hd' as <-.
  pose proof (month_index_range _ _ H1) as Hi. pose proof (month_index_range _ _ H2) as Hj.
  destruct (Z.lt_trichotomy i j) as [Hlt | [Heq | Hgt]].
  - pose proof (month_end_before_later_start year i j). lia.
  - subst j. apply Hne. eapply monthMap_injective; eassumption.
  - pose proof (month_end_before_later_start year j i). lia.
Qed.

Lemma filter_lengths_le {A : Type} (P Q R : A → bool) (l : list A) :
  (∀ x, P x = true → R x = true) →
  (∀ x, Q x = true → R x = true) →
  (∀ x, P x = true → Q x = true → False) →
  (length (List.filter P l) + length (List.filter Q l) ≤ length (List.filter R l))%nat.
Proof.
  intros HP HQ HPQ. induction l as [|x l IH]; [reflexivity|].
  cbn [List.filter].
  destruct (P x) eqn:Px, (Q x) eqn:Qx.
  - exfalso. eauto.
  - rewrite (HP x Px). cbn [length]. lia.
  - rewrite (HQ x Qx). cbn [length]. lia.
  - destruct (R x); cbn [length]; lia.
Qed.

(** X8: the month figures add up over the year. Whenever the statistics
    route answers two months, the earlier one first, the records the earlier
    answer counts as sold or as dated before its month are all among those
    the later answer counts as dated before its month; and within one answer
    [soldItems + notSoldItems] never exceeds the number of records. *)
Theorem X8_statistics_across_months
    (year : Z) (p1 p2 : string) (i j : Z) (db : Store.Db) (s1 s2 : Statistics) :
  clock_year year →
  monthMap !! JS.toLowerCase p1 = Some i → monthMap !! JS.toLowerCase p2 = Some j → i < j →
  fst (run (route_statistics year p1) db) = Some (json (StatisticsBody s1)) →
  fst (run (route_statistics year p2) db) = Some (json (StatisticsBody s2)) →
  (notSoldItems s1 + soldItems s1 ≤ notSoldItems s2)%nat
  ∧ (soldItems s1 + notSoldItems s1 ≤ length (Store.docs db))%nat
  ∧ (soldItems s2 + notSoldItems s2 ≤ length (Store.docs db))%nat.
Proof.
  intros Hy H1 H2 Hij R1 R2.
  apply route_statistics_json in R1. apply route_statistics_json in R2. subst s1 s2.
  pose proof (month_index_range _ _ H1) as Hi. pose proof (month_index_range _ _ H2) as Hj.
  pose proof (month_end_before_later_start year i j ltac:(lia) Hij ltac:(lia)) as Hgap.
  assert (Hlast : ∀ k, 0 ≤ k ≤ 11 →
            JS.MakeDate (JS.MakeDay year k 1) 0
            ≤ JS.MakeDate (JS.MakeDay year k (JS.DaysInMonth year k)) 0).
  { intros k Hk. pose proof (DaysInMonth_range year k Hk).
    rewrite (MakeDay_date year k (JS.DaysInMonth year k)). unfold JS.MakeDate, JS.msPerDay. lia. }
  pose proof (Hlast i Hi) as Hli.
  unfold statistics_of, in_range, before_range, month_range, Store.select.
  cbn [soldItems notSoldItems].
  rewrite (getStartEndDate_value year _ i Hy H1), (getStartEndDate_value year _ j Hy H2).
  cbn [startDate endDate].
  assert (Hwithin : ∀ (P Q : Transaction → bool),
            (∀ x, P x = true → Q x = true → False) →
            (length (List.filter P (Store.docs db)) + length (List.filter Q (Store.docs db))
             ≤ length (Store.docs db))%nat).
  { intros P Q HPQ.
    pose proof (filter_lengths_le P Q (fun _ => true) (Store.docs db)
                  (fun _ _ => eq_refl) (fun _ _ => eq_refl) HPQ) as H.
    rewrite (forallb_filter_id (fun _ => true)) in H; [exact H|].
    clear. induction (Store.docs db); cbn; auto. }
  assert (Hdisj : ∀ s e x, s ≤ e →
            Store.matches (Store.DateBetween (JS.TimeValue s) (JS.TimeValue e)) x = true →
            Store.matches (Store.DateBefore (JS.TimeValue s)) x = true → False).
  { intros s e x _. cbn [Store.matches]. unfold Store.date_ge, Store.date_le, Store.date_lt.
    destruct (dateOfSale x); [|discriminate].
    rewrite andb_true_iff, !Z.leb_le, Z.ltb_lt. lia. }
  split; [|split].
  - apply filter_lengths_le.
    + intros x. cbn [Store.matches]. unfold Store.date_lt.
      destruct (dateOfSale x); [|discriminate]. rewrite !Z.ltb_lt. lia.
    + intros x. cbn [Store.matches]. unfold Store.date_ge, Store.date_le, Store.date_lt.
      destruct (dateOfSale x); [|discriminate].
      rewrite andb_true_iff, !Z.leb_le, Z.ltb_lt. lia.
    + intros x Hb Hr. exact (Hdisj _ _ x Hli Hr Hb).
  - apply Hwithin. intros x Hr Hb. exact (Hdisj _ _ x Hli Hr Hb).
  - apply Hwithin. intros x Hr Hb. exact (Hdisj _ _ x (Hlast j Hj) Hr Hb).
Qed.

(** X19: [getStartEndDate] does no lowercasing or checking of its own. For
    each of the twelve lowercase month names it returns two valid dates, the
    start before the end; for any other key, a capitalised month name
    included, both dates are invalid. *)
Theorem X19_dates_valid_only_for_month_names (year : Z) (month : string) :
  clock_year year →
  (month ∈ month_names →
   ∃ s e, getStartEndDate year month = {| startDate := JS.TimeValue s; endDate := JS.TimeValue e |}
          ∧ s < e)
  ∧ (month ∉ month_names →
     getStartEndDate year month = {| startDate := JS.Invalid; endDate := JS.Invalid |}).
Proof.
  intros Hy. split.
  - intros Hin. apply monthMap_lookup_name in Hin as [i Hi].
    rewrite (getStartEndDate_value year month i Hy Hi). do 2 eexists. split; [reflexivity|].
    pose proof (month_index_range _ _ Hi) as Hr.
    pose proof (DaysInMonth_range year i Hr).
    rewrite (MakeDay_date year i (JS.DaysInMonth year i)). unfold JS.MakeDate, JS.msPerDay. lia.
  - intros Hnot. unfold getStartEndDate, JS.get.
    destruct (monthMap !! month) as [i|] eqn:Hi.
    + exfalso. apply Hnot, monthMap_lookup_name. eauto.
    + destruct (bool_decide _); reflexivity.
Qed.

(** ** Pages of the transaction list *)

Lemma serve_transactions_run (pg pp : Z) (s : string) (db : Store.Db) (query : Store.Filter) :
  transactions_query s = Some query →
  serve_transactions {| page := Some pg; perPage := Some pp; search := Some s |} db
  = fst (run (Store.try_catch
                (transactions ← Store.find query (Some ((pg - 1) * pp)) (Some pp);
                 total ← Store.countDocuments query;
                 mret (json (PageBody {| transactions := transactions; total := total |})))
                (failure "Failed to retrieve transactions")) db).
Proof.
  intros Hq. unfold serve_transactions, route_transactions.
  change (default ""%string (search _)) with s. rewrite Hq. reflexivity.
Qed.

Lemma firstn_add_skipn {A : Type} (a b : nat) (l : list A) :
  firstn a l ++ firstn b (skipn a l) = firstn (a + b) l.
Proof.
  revert l. induction a as [|a IH]; intros l; [reflexivity|].
  destruct l as [|x l]; cbn [firstn skipn Nat.add app].
  - destruct b; reflexivity.
  - rewrite IH. reflexivity.
Qed.

Lemma listed_slice (pg pp : Z) (s : string) (db : Store.Db) (query : Store.Filter) :
  available db → 1 ≤ pg → 1 ≤ pp → transactions_query s = Some query →
  listed pg pp s db
  = firstn (Z.to_nat pp) (skipn (Z.to_nat ((pg - 1) * pp)) (Store.select query (Store.docs db))).
Proof.
  intros Ha Hpg Hpp Hq. unfold listed.
  rewrite (serve_transactions_run _ _ _ db query) by exact Hq.
  rewrite (list_page_available query pg pp db Ha Hpg Hpp). reflexivity.
Qed.

(** X9: on a store that serves the requests, the pages of one search fit
    together: for a page size of at least 1, pages 1 to [n] put one after
    the other are exactly the first [n * perPage] matching records, in the
    order of the store, so paging neither skips nor repeats a record. *)
Theorem X9_pages_tile_the_matches
    (pp : Z) (s : string) (db : Store.Db) (query : Store.Filter) (n : nat) :
  available db → 1 ≤ pp → transactions_query s = Some query →
  concat (List.map (fun pg => listed (Z.of_nat pg) pp s db) (seq 1 n))
  = firstn (n * Z.to_nat pp) (Store.select query (Store.docs db)).
Proof.
  intros Ha Hpp Hq. induction n as [|n IH]; [reflexivity|].
  rewrite seq_S, List.map_app, concat_app, IH. cbn [List.map concat].
  rewrite app_nil_r, (listed_slice (Z.of_nat (1 + n)) pp s db query Ha ltac:(lia) Hpp Hq).
  replace (Z.to_nat ((Z.of_nat (1 + n) - 1) * pp)) with (n * Z.to_nat pp)%nat
    by (rewrite Z2Nat.inj_mul by lia; lia).
  rewrite firstn_add_skipn. f_equal. lia.
Qed.

(** X10: on a store that serves the request, a page of at least 1 with a
    size of at least 1 answers with [total] the number of matching records,
    whatever the page, and shows [perPage] records, or what is left of the
    matches after the skipped ones when that is less; a page past the last
    match is empty. *)
Theorem X10_page_length_and_total
    (pg pp : Z) (s : string) (db : Store.Db) (query : Store.Filter) :
  available db → 1 ≤ pg → 1 ≤ pp → transactions_query s = Some query →
  let matching := Z.of_nat (length (Store.select query (Store.docs db))) in
  ∃ p, page_of (serve_transactions {| page := Some pg; perPage := Some pp; search := Some s |} db)
       = Some p
       ∧ Z.of_nat (total p) = matching
       ∧ Z.of_nat (length (transactions p)) = Z.min pp (Z.max 0 (matching - (pg - 1) * pp))
       ∧ (matching ≤ (pg - 1) * pp → transactions p = []).
Proof.
  intros Ha Hpg Hpp Hq matching.
  rewrite (serve_transactions_run _ _ _ db query) by exact Hq.
  rewrite (list_page_available query pg pp db Ha Hpg Hpp). cbn [fst page_of json body].
  eexists. split; [reflexivity|]. cbn [total transactions].
  assert (Hs : 0 ≤ (pg - 1) * pp) by (apply Z.mul_nonneg_nonneg; lia).
  assert (Hlen : Z.of_nat (length (firstn (Z.to_nat pp)
                    (skipn (Z.to_nat ((pg - 1) * pp)) (Store.select query (Store.docs db)))))
                 = Z.min pp (Z.max 0 (matching - (pg - 1) * pp))).
  { rewrite length_firstn, length_skipn. subst matching. lia. }
  split; [reflexivity|]. split; [exact Hlen|].
  intros Hpast. apply length_zero_iff_nil. lia.
Qed.

(** X11: a rejected store operation ends the list request with status 500
    and the store's error: when the find is rejected the count is never
    issued, and when the count is rejected the records already found are not
    returned. A request whose skip [(page - 1) * perPage] is negative is
    answered 500 by every store. *)
Theorem X11_list_request_failures (q : ListQuery) (db : Store.Db) (query : Store.Filter) :
  transactions_query (default ""%string (search q)) = Some query →
  let skip := (default 1 (page q) - 1) * default 10 (perPage q) in
  let find := Store.Find query (Some skip) (Some (default 10 (perPage q))) in
  let count := Store.CountDocuments query in
  let failed := failure "Failed to retrieve transactions" in
  ∃ h, route_transactions q = Some h
       ∧ (∀ e, Store.fault db 0 find = Some e → run h db = (Some (failed e), [find]))
       ∧ (∀ e, 0 ≤ skip → Store.fault db 0 find = None → Store.fault db 1 count = Some e →
               run h db = (Some (failed e), [find; count]))
       ∧ (skip < 0 → ∃ e, run h db = (Some (failed e), [find])).
Proof.
  intros Hq skip find count failed.
  unfold route_transactions. rewrite Hq. cbn [mbind option_bind].
  eexists. split; [reflexivity|]. fold skip. unfold_async. cbn [length app].
  fold find count.
  split; [|split].
  - intros e F0. rewrite F0. reflexivity.
  - intros e Hs F0 F1. rewrite F0.
    replace (skip <? 0) with false by (symmetry; apply Z.ltb_ge; exact Hs).
    cbn [length app]. rewrite F1. reflexivity.
  - intros Hs. replace (skip <? 0) with true by (symmetry; apply Z.ltb_lt; exact Hs).
    destruct (Store.fault db 0 find) as [e|]; eexists; reflexivity.
Qed.

(** X12: a page size of 0 is no limit at all: on a store that serves the
    request, page 1 with [perPage = 0] returns every matching record. *)
Theorem X12_zero_page_size_lists_everything
    (s : string) (db : Store.Db) (query : Store.Filter) :
  available db → transactions_query s = Some query →
  page_of (serve_transactions {| page := Some 1; perPage := Some 0; search := Some s |} db)
  = Some {| transactions := Store.select query (Store.docs db);
            total := length (Store.select query (Store.docs db)) |}.
Proof.
  intros Ha Hq.
  rewrite (serve_transactions_run _ _ _ db query) by exact Hq.
  unfold_async. rewrite !Ha. reflexivity.
Qed.

(** ** Searching *)

Lemma digit_char (d : nat) :
  (d < 10)%nat →
  ∃ c, ascii_of_nat (48 + d) = c
       ∧ JS.is_digit c = true ∧ JS.digit_value c = Z.of_nat d
       ∧ JS.is_syntax_char c = false.
Proof.
  intros Hd. do 10 (destruct d as [|d]; [eexists; repeat split; vm_compute; reflexivity|]). lia.
Qed.

Lemma read_digits_numeral (ds : list nat) (acc : Z) (n : nat) :
  Forall (fun d => (d < 10)%nat) ds →
  JS.read_digits acc n (numeral ds) = (numeral_value acc ds, (n + length ds)%nat, EmptyString).
Proof.
  intros H. revert acc n. induction H as [|d ds Hd Hds IH]; intros acc n; cbn [numeral numeral_value length].
  - rewrite Nat.add_0_r. reflexivity.
  - destruct (digit_char d Hd) as (c & -> & Hc & Hv & _). cbn [JS.read_digits].
    rewrite Hc, Hv, IH. f_equal. f_equal. lia.
Qed.

Lemma plain_numeral (ds : list nat) :
  Forall (fun d => (d < 10)%nat) ds → plain (numeral ds) = true.
Proof.
  induction 1 as [|d ds Hd Hds IH]; [reflexivity|]. cbn [numeral plain].
  destruct (digit_char d Hd) as (c & -> & _ & _ & Hs). rewrite Hs, IH. reflexivity.
Qed.

Lemma parseFloat_numeral (ds : list nat) :
  ds ≠ [] → Forall (fun d => (d < 10)%nat) ds →
  ∃ x, JS.parseFloat (numeral ds) = JS.Finite x ∧ (x == inject_Z (numeral_value 0 ds))%Q.
Proof.
  intros Hne H. destruct ds as [|d ds]; [congruence|].
  pose proof (read_digits_numeral (d :: ds) 0 0 H) as Hread.
  inversion H as [|? ? Hd Hds]; subst.
  unfold JS.parseFloat.
  assert (Hhead : JS.read_sign (JS.trim_start (numeral (d :: ds))) = (false, numeral (d :: ds))
                  ∧ String.prefix "Infinity" (numeral (d :: ds)) = false).
  { cbn [numeral].
    do 10 (destruct d as [|d]; [split; reflexivity|]). lia. }
  destruct Hhead as [-> ->]. rewrite Hread.
  cbn [length Nat.add]. cbv beta iota zeta.
  eexists. split; [reflexivity|].
  rewrite Qred_correct. unfold JS.scale, JS.read_exponent. cbn [Z.leb Z.compare Z.of_nat Z.pow Z.pow_pos].
  change (10 ^ 0) with 1. change (inject_Z 1) with 1%Q.
  rewrite Z.mul_1_r, Z.add_0_r.
  change (inject_Z (10 ^ Z.of_nat 0)) with 1%Q. unfold Qdiv. change (/ 1)%Q with 1%Q.
  rewrite !Qmult_1_r. reflexivity.
Qed.

Lemma search_query_plain (s : string) :
  plain s = true →
  ∃ query, transactions_query s = Some query
           ∧ ∀ t, Store.matches query t = true ↔ search_matches s t.
Proof.
  intros Hp. unfold transactions_query. rewrite (new_RegExp_plain s Hp).
  eexists. split; [reflexivity|]. intros t.
  cbn [Store.matches]. unfold search_matches.
  rewrite !orb_true_iff, !regex_field_literal, price_matches_branch. tauto.
Qed.

(** X13: a search for a non-negative whole number written in decimal finds
    every record whose price is that number, whatever its title and
    description. *)
Theorem X13_numeral_search_finds_price (ds : list nat) (t : Transaction) (q : Q) :
  ds ≠ [] → Forall (fun d => (d < 10)%nat) ds →
  price t = Some q → (q == inject_Z (numeral_value 0 ds))%Q →
  ∃ query, transactions_query (numeral ds) = Some query
           ∧ Store.matches query t = true.
Proof.
  intros Hne Hds Hp Hq.
  destruct (search_query_plain (numeral ds) (plain_numeral ds Hds)) as (query & Hquery & Hm).
  exists query. split; [exact Hquery|]. apply Hm. right. right.
  unfold price_branch. rewrite bool_decide_eq_false_2.
  - destruct (parseFloat_numeral ds Hne Hds) as (x & Hx & Hxv).
    exists q, x. split; [exact Hp|]. split; [exact Hx|]. rewrite Hxv. exact Hq.
  - destruct ds as [|d ds]; [congruence|]. discriminate.
Qed.

(** X20: a search for a word is refused. When the search string is not
    empty and [parseFloat] reads it as NaN, the query asks for the price NaN;
    on a store whose client library casts the filters the find is rejected,
    the count is never issued and the route answers 500, whatever the
    pattern engine and however many titles contain the word. *)
Theorem X20_word_search_is_refused
    (engine : Engine) (q : ListQuery) (db : Store.Db) (h : Store.Async Response) :
  casting db →
  default ""%string (search q) ≠ ""%string →
  JS.parseFloat (default ""%string (search q)) = JS.NaN →
  route_transactions_with engine q = Some h →
  ∃ find e, snd (run h db) = [find]
            ∧ castable find = false
            ∧ fst (run h db) = Some (failure "Failed to retrieve transactions" e).
Proof.
  intros Hcast Hne Hnan. unfold route_transactions_with, transactions_query_with.
  destruct (engine (default ""%string (search q))) as [accepts|]; [|discriminate].
  rewrite bool_decide_eq_false_2 by exact Hne. rewrite Hnan.
  cbn [mbind option_bind]. intros [= <-].
  unfold_async. cbn [length]. set (find := Store.Find _ _ _).
  destruct (Hcast 0%nat find eq_refl) as [e He].
  exists find, e. rewrite He. auto.
Qed.


(** ** Seeding *)

Lemma initialize_cases (w : Seed.World) (docs : list Transaction) :
  let failed := failure "Failed to initialize database" in
  (∃ e, Seed.fetched w = Store.Rejected e ∧ Seed.initialize w docs = (failed e, docs))
  ∨ (Seed.fetched w = Store.Resolved Seed.NotAnArray
     ∧ ∃ e, Seed.initialize w docs = (failed e, docs))
  ∨ (∃ items, Seed.fetched w = Store.Resolved (Seed.Items items)
              ∧ mapM Seed.cast items = None
              ∧ ∃ e, Seed.initialize w docs = (failed e, docs))
  ∨ (∃ items ts e n, Seed.fetched w = Store.Resolved (Seed.Items items)
                     ∧ mapM Seed.cast items = Some ts
                     ∧ Seed.write_fault w = Some (e, n)
                     ∧ Seed.initialize w docs = (failed e, docs ++ firstn n ts))
  ∨ (∃ items ts, Seed.fetched w = Store.Resolved (Seed.Items items)
                 ∧ mapM Seed.cast items = Some ts
                 ∧ Seed.write_fault w = None
                 ∧ Seed.initialize w docs
                   = ({| status := 200; body := Message "Database initialized successfully" None |},
                      docs ++ ts)).
Proof.
  intros failed. unfold Seed.initialize, Seed.insertMany. fold failed.
  destruct (Seed.fetched w) as [[items|]|e].
  - destruct (mapM Seed.cast items) as [ts|] eqn:Hm.
    + destruct (Seed.write_fault w) as [[e n]|].
      * do 3 right. left. exists items, ts, e, n. auto.
      * do 4 right. exists items, ts. auto.
    + do 2 right. left. exists items. eauto.
  - right. left. eauto.
  - left. eauto.
Qed.

(** X15: the seeding request answers 200 exactly when the fetch delivers an
    array, every item carries a valid date and the store takes the whole
    bulk insert; the collection is then the old one followed by one record
    per item, in the order of the feed, each with the item's title,
    description, price, date and category. *)
Theorem X15_seed_success (w : Seed.World) (docs : list Transaction) :
  let r := fst (Seed.initialize w docs) in
  let docs' := snd (Seed.initialize w docs) in
  (status r = 200
   ↔ ∃ items, Seed.fetched w = Store.Resolved (Seed.Items items)
              ∧ Forall (fun item => Seed.item_dateOfSale item ≠ JS.Invalid) items
              ∧ Seed.write_fault w = None)
  ∧ (status r = 200 →
     ∃ items ts,
       Seed.fetched w = Store.Resolved (Seed.Items items)
       ∧ docs' = docs ++ ts
       ∧ Forall2 (fun item t =>
                    title t = Seed.item_title item
                    ∧ description t = Seed.item_description item
                    ∧ price t = Seed.item_price item
                    ∧ JS.TimeValue <$> dateOfSale t = Some (Seed.item_dateOfSale item)
                    ∧ category t = Seed.item_category item) items ts).
Proof.
  intros r docs'. subst r docs'.
  assert (Hvalid : ∀ items, is_Some (mapM Seed.cast items)
                            ↔ Forall (fun item => Seed.item_dateOfSale item ≠ JS.Invalid) items).
  { intros items. rewrite mapM_is_Some. apply Forall_iff.
    intros item. unfold compose, Seed.cast. destruct (Seed.item_dateOfSale item) as [|d].
    - split; [intros [? [=]] | intros H; congruence].
    - split; [intros _; discriminate | intros _; eauto]. }
  destruct (initialize_cases w docs)
    as [(e & Hf & ->) | [(Hf & e & ->) | [(items & Hf & Hm & e & ->)
       | [(items & ts & e & n & Hf & Hm & Hw & ->) | (items & ts & Hf & Hm & Hw & ->)]]]];
    cbn [fst snd status failure].
  - split; [split; [discriminate | intros (items & H & _); congruence] | discriminate].
  - split; [split; [discriminate | intros (items & H & _); congruence] | discriminate].
  - split; [split; [discriminate|] | discriminate].
    intros (items' & H & Hv & _). rewrite Hf in H. injection H as <-.
    apply Hvalid in Hv as [ts Hts]. congruence.
  - split; [split; [discriminate | intros (items' & _ & _ & H); congruence] | discriminate].
  - split.
    + split; [|reflexivity]. intros _. exists items. split; [exact Hf|]. split; [|exact Hw].
      apply Hvalid. eauto.
    + intros _. exists items, ts. split; [exact Hf|]. split; [reflexivity|].
      apply mapM_Some in Hm. eapply Forall2_impl; [exact Hm|].
      intros item t Hc. unfold Seed.cast in Hc.
      destruct (Seed.item_dateOfSale item) as [|d]; [discriminate|].
      injection Hc as <-. cbn. auto.
Qed.

(** X16: seeding never removes or reorders what the collection holds: after
    any request the old records are still there, in their order, followed by
    whatever was added. A failed fetch, a fetched value that is not an
    array, or an item with an invalid date leave the collection exactly as
    it was, with answer 500. *)
Theorem X16_seed_only_appends (w : Seed.World) (docs : list Transaction) :
  let r := fst (Seed.initialize w docs) in
  let docs' := snd (Seed.initialize w docs) in
  (∃ added, docs' = docs ++ added)
  ∧ ((∀ items, Seed.fetched w ≠ Store.Resolved (Seed.Items items))
     → status r = 500 ∧ docs' = docs)
  ∧ (∀ items item, Seed.fetched w = Store.Resolved (Seed.Items items) →
       item ∈ items → Seed.item_dateOfSale item = JS.Invalid →
       status r = 500 ∧ docs' = docs).
Proof.
  intros r docs'. subst r docs'.
  destruct (initialize_cases w docs)
    as [(e & Hf & ->) | [(Hf & e & ->) | [(items & Hf & Hm & e & ->)
       | [(items & ts & e & n & Hf & Hm & Hw & ->) | (items & ts & Hf & Hm & Hw & ->)]]]];
    cbn [fst snd status failure].
  - split; [exists []; rewrite app_nil_r; reflexivity|]. split; [auto|].
    intros items item H. congruence.
  - split; [exists []; rewrite app_nil_r; reflexivity|]. split; [auto|].
    intros items item H. congruence.
  - split; [exists []; rewrite app_nil_r; reflexivity|]. split; [auto|]. auto.
  - split; [eauto|]. split; [intros H; exfalso; eapply H; eassumption|].
    intros items' item H Hin Hinv. exfalso. rewrite Hf in H. injection H as <-.
    apply mk_is_Some, mapM_is_Some in Hm. rewrite Forall_forall in Hm.
    destruct (Hm item Hin) as [t Ht]. unfold Seed.cast in Ht. rewrite Hinv in Ht. discriminate.
  - split; [eauto|]. split; [intros H; exfalso; eapply H; eassumption|].
    intros items' item H Hin Hinv. exfalso. rewrite Hf in H. injection H as <-.
    apply mk_is_Some, mapM_is_Some in Hm. rewrite Forall_forall in Hm.
    destruct (Hm item Hin) as [t Ht]. unfold Seed.cast in Ht. rewrite Hinv in Ht. discriminate.
Qed.

Lemma select_app (f : Store.Filter) (l1 l2 : list Transaction) :
  Store.select f (l1 ++ l2) = Store.select f l1 ++ Store.select f l2.
Proof. unfold Store.select. apply List.filter_app. Qed.

(** X17: seeding is not idempotent: a second successful request from the
    same feed appends the same records once more, so every query then finds
    each seeded record twice. *)
Theorem X17_seeding_twice_duplicates (w : Seed.World) (docs : list Transaction) :
  status (fst (Seed.initialize w docs)) = 200 →
  ∃ ts, snd (Seed.initialize w docs) = docs ++ ts
        ∧ status (fst (Seed.initialize w (docs ++ ts))) = 200
        ∧ snd (Seed.initialize w (docs ++ ts)) = docs ++ ts ++ ts
        ∧ ∀ f, length (Store.select f (docs ++ ts ++ ts))
               = (length (Store.select f docs) + 2 * length (Store.select f ts))%nat.
Proof.
  intros Hok.
  destruct (initialize_cases w docs)
    as [(e & Hf & Hi) | [(Hf & e & Hi) | [(items & Hf & Hm & e & Hi)
       | [(items & ts & e & n & Hf & Hm & Hw & Hi) | (items & ts & Hf & Hm & Hw & Hi)]]]];
    rewrite Hi in Hok; try discriminate Hok.
  exists ts. rewrite Hi. split; [reflexivity|].
  unfold Seed.initialize, Seed.insertMany. rewrite Hf, Hm, Hw. cbn [fst snd status].
  split; [reflexivity|]. split; [rewrite <- app_assoc; reflexivity|].
  intros f. rewrite !select_app, !length_app. lia.
Qed.

(** X18: what the store held before seeding is still reported afterwards.
    When a seeding request succeeds and the statistics route answers a month
    before and after it, [soldItems] and [notSoldItems] have grown by the
    numbers of seeded records dated in the month's range and before it. *)
Theorem X18_statistics_after_seeding
    (w : Seed.World) (db : Store.Db) (year : Z) (param : string) (s s' : Statistics) :
  status (fst (Seed.initialize w (Store.docs db))) = 200 →
  let db' := {| Store.docs := snd (Seed.initialize w (Store.docs db));
                Store.fault := Store.fault db |} in
  fst (run (route_statistics year param) db) = Some (json (StatisticsBody s)) →
  fst (run (route_statistics year param) db') = Some (json (StatisticsBody s')) →
  ∃ ts, Store.docs db' = Store.docs db ++ ts
        ∧ soldItems s'
          = (soldItems s + length (Store.select (month_range year (JS.toLowerCase param)) ts))%nat
        ∧ notSoldItems s'
          = (notSoldItems s
             + length (Store.select
                         (Store.DateBefore (startDate (getStartEndDate year (JS.toLowerCase param))))
                         ts))%nat.
Proof.
  intros Hok db' R R'.
  apply route_statistics_json in R. apply route_statistics_json in R'. subst s s'.
  destruct (initialize_cases w (Store.docs db))
    as [(e & Hf & Hi) | [(Hf & e & Hi) | [(items & Hf & Hm & e & Hi)
       | [(items & ts & e & n & Hf & Hm & Hw & Hi) | (items & ts & Hf & Hm & Hw & Hi)]]]];
    rewrite Hi in Hok; try discriminate Hok.
  exists ts. subst db'. rewrite Hi. cbn [snd Store.docs].
  unfold statistics_of, in_range, before_range. cbn [soldItems notSoldItems Store.docs].
  rewrite !select_app, !length_app. auto.
Qed.

(** ** Instances of the further properties *)

(** A store that rejects the second operation: the statistics route answers
    as [getStatistics] fails. *)
Lemma X2_flaky_instance :
  rejected_month (JS.toLowerCase "March") = false
  ∧ run (route_statistics 2026 "March") second_fails_db
    = (Some (failure "Failed to retrieve statistics" "store unreachable"),
       firstn 2 (statistics_ops 2026 "march")).
Proof.
  assert (Hg : rejected_month (JS.toLowerCase "March") = false) by (vm_compute; reflexivity).
  split; [exact Hg|].
  destruct (X2_routes_agree_with_helpers 2026 "March" second_fails_db Hg) as [H _].
  rewrite H. vm_compute. reflexivity.
Defined.

(** The combined route on a store that rejects its second operation. *)
Lemma X3_flaky_instance :
  rejected_month (JS.toLowerCase "March") = false
  ∧ ∃ k, (1 ≤ k ≤ 5)%nat
         ∧ snd (run (route_combined 2026 "March") second_fails_db)
           = firstn k (combined_ops 2026 (JS.toLowerCase "March")).
Proof.
  assert (Hg : rejected_month (JS.toLowerCase "March") = false) by (vm_compute; reflexivity).
  split; [exact Hg|].
  destruct (X3_combined_stops_at_first_rejection 2026 "March" second_fails_db Hg)
    as (k & Hk & Hlog & _).
  exists k. split; [exact Hk | exact Hlog].
Defined.

(** The categories of March 2026. *)
Lemma X4_march_instance :
  ∃ gs, fst (run (route_pie_chart 2026 "March") march_db) = Some (json (PieChartBody gs))
        ∧ NoDup (Store._id <$> gs)
        ∧ reported_count (Some "toys"%string) gs = 2%nat.
Proof.
  eexists. split; [vm_compute; reflexivity|].
  destruct (X4_pie_chart_counts_each_category 2026 "March" march_db _
              ltac:(vm_compute; reflexivity)) as (Hnd & Hcnt & _).
  split; [exact Hnd|]. rewrite Hcnt. vm_compute. reflexivity.
Defined.

(** A record without a price in March 2026. *)
Lemma X5_missing_price_instance :
  ∃ bs, fst (run (route_bar_chart 2026 "March") unpriced_db) = Some (json (BarChartBody bs))
        ∧ bs !! 9%nat = Some {| range := "901-above"; count := 1 |}.
Proof.
  eexists. split; [vm_compute; reflexivity|].
  pose proof (X5_last_bucket_takes_missing_prices 2026 "March" unpriced_db _
                ltac:(vm_compute; reflexivity)) as H.
  rewrite H. vm_compute. reflexivity.
Defined.

Lemma X6_instance : (50 <= 150)%Q ∧ (bucket (Some 50%Q) ≤ bucket (Some 150%Q))%nat.
Proof.
  assert (H : (50 <= 150)%Q) by (unfold Qle; cbn; lia).
  split; [exact H | exact (X6_bucket_monotone 50 150 H)].
Defined.

(** March and April 2026. *)
Lemma X7_march_april_instance :
  clock_year 2026 ∧ monthMap !! "march"%string = Some 2 ∧ monthMap !! "april"%string = Some 3
  ∧ ¬ (Store.matches (month_range 2026 "march") (sale 10 2 31 0 "toys") = true
       ∧ Store.matches (month_range 2026 "april") (sale 10 2 31 0 "toys") = true).
Proof.
  assert (Hy : clock_year 2026) by (unfold clock_year; lia).
  assert (H1 : monthMap !! "march"%string = Some 2) by (vm_compute; reflexivity).
  assert (H2 : monthMap !! "april"%string = Some 3) by (vm_compute; reflexivity).
  split; [exact Hy|]. split; [exact H1|]. split; [exact H2|].
  apply (X7_month_ranges_disjoint 2026 "march" "april" 2 3 _ Hy H1 H2). discriminate.
Defined.

(** February and March 2026. *)
Lemma X8_february_march_instance :
  ∃ s1 s2,
    fst (run (route_statistics 2026 "February") march_db) = Some (json (StatisticsBody s1))
    ∧ fst (run (route_statistics 2026 "March") march_db) = Some (json (StatisticsBody s2))
    ∧ (notSoldItems s1 + soldItems s1 ≤ notSoldItems s2)%nat.
Proof.
  do 2 eexists. split; [vm_compute; reflexivity|]. split; [vm_compute; reflexivity|].
  assert (Hy : clock_year 2026) by (unfold clock_year; lia).
  destruct (X8_statistics_across_months 2026 "February" "March" 1 2 march_db _ _ Hy
              ltac:(vm_compute; reflexivity) ltac:(vm_compute; reflexivity) ltac:(lia)
              ltac:(vm_compute; reflexivity) ltac:(vm_compute; reflexivity)) as [H _].
  exact H.
Defined.

(** Three pages of two records. *)
Lemma X9_three_pages_instance :
  available march_db ∧ 1 ≤ 2
  ∧ concat (List.map (fun pg => listed (Z.of_nat pg) 2 "" march_db) (seq 1 3)) = march_sales.
Proof.
  split; [apply always_up_available|]. split; [lia|].
  rewrite (X9_pages_tile_the_matches 2 "" march_db _ 3 (always_up_available _) ltac:(lia) eq_refl).
  vm_compute. reflexivity.
Defined.

(** The fourth page of two records, past the six matches. *)
Lemma X10_past_the_end_instance :
  available march_db
  ∧ ∃ p, page_of (serve_transactions
                    {| page := Some 4; perPage := Some 2; search := Some ""%string |} march_db)
         = Some p
         ∧ total p = 6%nat ∧ transactions p = [].
Proof.
  split; [apply always_up_available|].
  destruct (X10_page_length_and_total 4 2 "" march_db _ (always_up_available _)
              ltac:(lia) ltac:(lia) eq_refl) as (p & Hp & Ht & _ & He).
  exists p. split; [exact Hp|]. split.
  - apply Nat2Z.inj. rewrite Ht. vm_compute. reflexivity.
  - apply He. vm_compute. discriminate.
Defined.

(** The count is rejected after the find was served. *)
Lemma X11_count_rejected_instance :
  ∃ h, route_transactions {| page := Some 1; perPage := Some 2; search := None |} = Some h
       ∧ fst (run h second_fails_db)
         = Some (failure "Failed to retrieve transactions" "store unreachable").
Proof.
  destruct (X11_list_request_failures
              {| page := Some 1; perPage := Some 2; search := None |} second_fails_db _ eq_refl)
    as (h & Hh & _ & Hcount & _).
  exists h. split; [exact Hh|].
  rewrite (Hcount "store unreachable"%string); [reflexivity | cbn; lia | reflexivity | reflexivity].
Defined.

Lemma X12_instance :
  available march_db
  ∧ page_of (serve_transactions
               {| page := Some 1; perPage := Some 0; search := Some ""%string |} march_db)
    = Some {| transactions := march_sales; total := 6 |}.
Proof.
  split; [apply always_up_available|].
  rewrite (X12_zero_page_size_lists_everything "" march_db _ (always_up_available _) eq_refl).
  vm_compute. reflexivity.
Defined.

(** The search string "150" and a record that has only the price 150. *)
Lemma X13_instance :
  numeral [1; 5; 0]%nat = "150"%string
  ∧ ∃ query, transactions_query "150" = Some query
             ∧ Store.matches query (only_price 150) = true.
Proof.
  split; [reflexivity|].
  apply (X13_numeral_search_finds_price [1; 5; 0]%nat (only_price 150) 150).
  - discriminate.
  - repeat constructor.
  - reflexivity.
  - reflexivity.
Defined.

(** Seeding the feed twice into the March collection. *)
Lemma X17_instance :
  status (fst (Seed.initialize good_world march_sales)) = 200
  ∧ ∃ ts, snd (Seed.initialize good_world march_sales) = march_sales ++ ts
          ∧ snd (Seed.initialize good_world (march_sales ++ ts)) = march_sales ++ ts ++ ts.
Proof.
  assert (Hok : status (fst (Seed.initialize good_world march_sales)) = 200) by reflexivity.
  split; [exact Hok|].
  destruct (X17_seeding_twice_duplicates good_world march_sales Hok) as (ts & Hts & _ & H2 & _).
  exists ts. split; [exact Hts | exact H2].
Defined.

(** The March statistics before and after seeding the feed. *)
Lemma X18_instance :
  status (fst (Seed.initialize good_world (Store.docs march_db))) = 200
  ∧ ∃ s s',
      fst (run (route_statistics 2026 "March") march_db) = Some (json (StatisticsBody s))
      ∧ fst (run (route_statistics 2026 "March") seeded_db) = Some (json (StatisticsBody s'))
      ∧ (soldItems s ≤ soldItems s')%nat.
Proof.
  assert (Hok : status (fst (Seed.initialize good_world (Store.docs march_db))) = 200)
    by reflexivity.
  split; [exact Hok|]. do 2 eexists.
  split; [vm_compute; reflexivity|]. split; [vm_compute; reflexivity|].
  destruct (X18_statistics_after_seeding good_world march_db 2026 "March" _ _ Hok
              ltac:(vm_compute; reflexivity) ltac:(vm_compute; reflexivity))
    as (ts & _ & Hsold & _).
  rewrite Hsold. lia.
Defined.

(** The helper called with "march" and with "March" in 2026. *)
Lemma X19_instance :
  clock_year 2026
  ∧ (∃ s e, getStartEndDate 2026 "march"
            = {| startDate := JS.TimeValue s; endDate := JS.TimeValue e |} ∧ s < e)
  ∧ getStartEndDate 2026 "March" = {| startDate := JS.Invalid; endDate := JS.Invalid |}.
Proof.
  assert (Hy : clock_year 2026) by (unfold clock_year; lia).
  split; [exact Hy|].
  destruct (X19_dates_valid_only_for_month_names 2026 "march" Hy) as [H _].
  destruct (X19_dates_valid_only_for_month_names 2026 "March" Hy) as [_ H'].
  split.
  - apply H. apply (bool_decide_unpack _). vm_compute. exact I.
  - apply H'. intros Hin. apply (bool_decide_pack _) in Hin. vm_compute in Hin. exact Hin.
Defined.

(** The word "item" on a store whose client library casts the filters. *)
Lemma X20_instance :
  casting casting_db
  ∧ ∃ h, route_transactions_with literal_engine
           {| page := None; perPage := None; search := Some "item"%string |} = Some h
         ∧ ∃ e, fst (run h casting_db) = Some (failure "Failed to retrieve transactions" e).
Proof.
  assert (Hc : casting casting_db).
  { intros n op H. cbn [casting_db Store.fault]. unfold cast_errors. rewrite H. eauto. }
  split; [exact Hc|]. eexists. split; [reflexivity|].
  destruct (X20_word_search_is_refused literal_engine
              {| page := None; perPage := None; search := Some "item"%string |}
              casting_db _ Hc ltac:(discriminate) ltac:(vm_compute; reflexivity) eq_refl)
    as (find & e & _ & _ & H).
  exists e. exact H.
Defined.
